(** * browser-agent: the tool set, the DOM extractor and the task loop of
    [src/agent.ts], embedded in Rocq.

    Conventions of the embedding.
    - A JavaScript string is a [string] holding its UTF-8 encoding.
    - A DOM property that the page function reads with type [any] is a
      [JsValue]; a value that TypeScript types as a string that may be
      [null] or [undefined] is an [option string].
    - Numbers handed to the tools (milliseconds, pixel offsets, the clock)
      are integers, [Z], printed in decimal as JavaScript prints an integer
      below 10^21 in magnitude.
    - [async]/[await] is sequential: a tool runs to completion before the
      next one starts, so an awaited call is a step of a state-and-exception
      monad over the session.
    - chalk colours, gradients and box borders only decorate text; they are
      erased and the text itself is kept. *)

From stdpp Require Import base list strings pretty gmap.
From Stdlib Require Import ZArith Ascii String.

Local Open Scope string_scope.
Local Open Scope Z_scope.
Local Open Scope list_scope.

(** ** JavaScript strings *)

(** The double quote and the line feed, which occur inside the source's
    template literals. *)
Definition dquote : string := String (ascii_of_nat 34) EmptyString.
Definition newline : string := String (ascii_of_nat 10) EmptyString.

(** [if (v)] on a value that is a string or [undefined]. *)
Definition truthy (v : option string) : bool :=
  match v with
  | None => false
  | Some EmptyString => false
  | Some (String _ _) => true
  end.

(** [`${v}`] *)
Definition interpolate (v : option string) : string :=
  match v with
  | None => "undefined"
  | Some s => s
  end.

(** [v || d] where [v] is a string, [undefined] or [null] and [d] a
    string. *)
Definition or_else (v : option string) (d : string) : string :=
  if truthy v then interpolate v else d.

Definition lower_ascii (c : ascii) : ascii :=
  let n := nat_of_ascii c in
  if (65 <=? n)%nat && (n <=? 90)%nat then ascii_of_nat (n + 32) else c.

(** [s.toLowerCase()], on the ASCII letters (tag names are ASCII). *)
Fixpoint toLowerCase (s : string) : string :=
  match s with
  | EmptyString => EmptyString
  | String c r => String (lower_ascii c) (toLowerCase r)
  end.

(** [s.split(sep)] for a one-character separator: [cur] is the piece being
    read, reversed. *)
Fixpoint split_go (sep : ascii) (cur : string) (s : string) : list string :=
  match s with
  | EmptyString => [String.rev cur]
  | String c r =>
      if Ascii.eqb c sep
      then String.rev cur :: split_go sep EmptyString r
      else split_go sep (String c cur) r
  end.

Definition split (sep : ascii) (s : string) : list string :=
  split_go sep EmptyString s.

(** [l.join(sep)] *)
Fixpoint join (sep : string) (l : list string) : string :=
  match l with
  | [] => EmptyString
  | [x] => x
  | x :: r => x +:+ sep +:+ join sep r
  end.

(** [l.filter(Boolean)] on strings: the empty string is the only falsy one. *)
Definition filter_Boolean (l : list string) : list string :=
  filter (λ s, s ≠ EmptyString) l.

(** One white-space code point (ECMAScript WhiteSpace or LineTerminator) at
    the head of a UTF-8 string: the rest of the string when there is one.
    U+0009..U+000D, U+0020, U+00A0, U+1680, U+2000..U+200A, U+2028, U+2029,
    U+202F, U+205F, U+3000, U+FEFF. *)
Definition strip_space (s : string) : option string :=
  match s with
  | EmptyString => None
  | String a r =>
      let x := nat_of_ascii a in
      if ((9 <=? x) && (x <=? 13))%nat || (x =? 32)%nat then Some r
      else
        match r with
        | EmptyString => None
        | String b r2 =>
            let y := nat_of_ascii b in
            if ((x =? 194) && (y =? 160))%nat then Some r2
            else
              match r2 with
              | EmptyString => None
              | String c r3 =>
                  let z := nat_of_ascii c in
                  if ((x =? 225) && (y =? 154) && (z =? 128))%nat
                     || ((x =? 226) && (y =? 128)
                         && (((128 <=? z) && (z <=? 138))
                             || (z =? 168) || (z =? 169) || (z =? 175)))%nat
                     || ((x =? 226) && (y =? 129) && (z =? 159))%nat
                     || ((x =? 227) && (y =? 128) && (z =? 128))%nat
                     || ((x =? 239) && (y =? 187) && (z =? 191))%nat
                  then Some r3
                  else None
              end
        end
  end.

(** The same at the end of the string, which is given reversed. *)
Definition strip_space_rev (s : string) : option string :=
  match s with
  | EmptyString => None
  | String a r =>
      let x := nat_of_ascii a in
      if ((9 <=? x) && (x <=? 13))%nat || (x =? 32)%nat then Some r
      else
        match r with
        | EmptyString => None
        | String b r2 =>
            let y := nat_of_ascii b in
            if ((y =? 194) && (x =? 160))%nat then Some r2
            else
              match r2 with
              | EmptyString => None
              | String c r3 =>
                  let z := nat_of_ascii c in
                  if ((z =? 225) && (y =? 154) && (x =? 128))%nat
                     || ((z =? 226) && (y =? 128)
                         && (((128 <=? x) && (x <=? 138))
                             || (x =? 168) || (x =? 169) || (x =? 175)))%nat
                     || ((z =? 226) && (y =? 129) && (x =? 159))%nat
                     || ((z =? 227) && (y =? 128) && (x =? 128))%nat
                     || ((z =? 239) && (y =? 187) && (x =? 191))%nat
                  then Some r3
                  else None
              end
        end
  end.

(** Strip white space from the head, at most [fuel] code points of it. *)
Fixpoint strip_while (strip : string → option string) (fuel : nat)
    (s : string) : string :=
  match fuel with
  | O => s
  | S n =>
      match strip s with
      | Some r => strip_while strip n r
      | None => s
      end
  end.

Definition trimStart (s : string) : string :=
  strip_while strip_space (String.length s) s.

Definition trimEnd (s : string) : string :=
  String.rev (strip_while strip_space_rev (String.length s) (String.rev s)).

(** [s.trim()] *)
Definition trim (s : string) : string := trimEnd (trimStart s).

(** ** Values read from the page *)

(** The page function reads the properties of an element with type [any].
    A property of an element is [undefined], [null], a boolean, a string,
    or an object; objects are not told apart. *)
Inductive JsValue : Type :=
  | JsUndefined
  | JsNull
  | JsBoolean (b : bool)
  | JsString (s : string)
  | JsObject.

(** [if (v)] *)
Definition ToBoolean (v : JsValue) : bool :=
  match v with
  | JsUndefined | JsNull => false
  | JsBoolean b => b
  | JsString EmptyString => false
  | JsString (String _ _) => true
  | JsObject => true
  end.

(** [`${v}`]; an object is printed as a plain object is (no element that
    the queries find has an object among the properties that the page
    function prints). *)
Definition ToString (v : JsValue) : string :=
  match v with
  | JsUndefined => "undefined"
  | JsNull => "null"
  | JsBoolean true => "true"
  | JsBoolean false => "false"
  | JsString s => s
  | JsObject => "[object Object]"
  end.

(** How a piece of the page function ends: normally, or by throwing a
    [TypeError] with the given message. *)
Inductive Completion (A : Type) : Type :=
  | Normal (a : A)
  | TypeError (message : string).
Arguments Normal {A} a.
Arguments TypeError {A} message.

#[export] Instance Completion_ret : MRet Completion := λ A a, Normal a.

#[export] Instance Completion_bind : MBind Completion :=
  λ A B f c,
    match c with
    | Normal a => f a
    | TypeError message => TypeError message
    end.

(** [button.className.split(sep)]: a string has the method; on any other
    value the call throws. *)
Definition className_split (className : JsValue) (sep : ascii)
    : Completion (list string) :=
  match className with
  | JsString s => Normal (split sep s)
  | JsUndefined =>
      TypeError "Cannot read properties of undefined (reading 'split')"
  | JsNull => TypeError "Cannot read properties of null (reading 'split')"
  | JsBoolean _ | JsObject =>
      TypeError "button.className.split is not a function"
  end.

(** [button.textContent?.trim()]: [undefined] for [null] and [undefined],
    the trimmed string for a string; on any other value the call throws. *)
Definition textContent_trim (textContent : JsValue) : Completion JsValue :=
  match textContent with
  | JsUndefined | JsNull => Normal JsUndefined
  | JsString s => Normal (JsString (trim s))
  | JsBoolean _ | JsObject =>
      TypeError "button.textContent?.trim is not a function"
  end.

(** ** The document seen by the page function *)

(** One element of the page: what the selector engine compares (the local
    name, the [type] content attribute, and whether the element is an HTML
    element of an HTML document) and the properties the page function
    reads from it. An element named [input] in a foreign namespace (inside
    [svg], say) is found by the query for [input]; its [name], [type] and
    [placeholder] are [undefined] and its [className] is an object. *)
Module Element.
Record t : Type := {
    html : bool;
    localName : string;
    typeAttribute : option string;
    tagName : string;
    id : JsValue;
    name : JsValue;
    type : JsValue;
    placeholder : JsValue;
    className : JsValue;
    value : JsValue;
    required : JsValue;
    offsetParent : JsValue;
    textContent : JsValue;
    action : JsValue
}.
End Element.

(** The fragment of CSS that the three queries use: a type selector, or a
    type selector with one attribute test on [type]; a query is a list of
    alternatives. *)
Inductive Selector : Type :=
  | TypeSelector (tag : string)
  | TypeAttrSelector (tag : string) (typeValue : string).

(** [[type="v"]] against the value [t] of the attribute: the values of the
    [type] attribute of an HTML element of an HTML document are compared
    without regard to ASCII case, those of any other element exactly. *)
Definition attribute_matches (html : bool) (t v : string) : bool :=
  if html then bool_decide (toLowerCase t = toLowerCase v)
  else bool_decide (t = v).

Definition matches1 (sel : Selector) (e : Element.t) : bool :=
  match sel with
  | TypeSelector tag => bool_decide (Element.localName e = tag)
  | TypeAttrSelector tag v =>
      bool_decide (Element.localName e = tag)
      && match Element.typeAttribute e with
         | Some t => attribute_matches (Element.html e) t v
         | None => false
         end
  end.

Definition matches (query : list Selector) (e : Element.t) : bool :=
  existsb (λ sel, matches1 sel e) query.

(** [document.querySelectorAll(query)]: the matching elements, in document
    order. The document is the list of its elements in that order. *)
Definition querySelectorAll (query : list Selector) (document : list Element.t)
    : list Element.t :=
  filter (λ e, matches query e) document.

(** ["form"] *)
Definition query_forms : list Selector := [TypeSelector "form"].

(** ["input, textarea, select"] *)
Definition query_inputs : list Selector :=
  [TypeSelector "input"; TypeSelector "textarea"; TypeSelector "select"].

(** ['button, input[type="submit"], input[type="button"]'] *)
Definition query_buttons : list Selector :=
  [TypeSelector "button"; TypeAttrSelector "input" "submit";
   TypeAttrSelector "input" "button"].

(** ** Element descriptors *)

Module FormDescriptor.
Record t : Type := {
    tag : string;
    selector : string;
    id : JsValue;
    className : JsValue;
    action : JsValue
}.
End FormDescriptor.

Module InputDescriptor.
Record t : Type := {
    tag : string;
    type : JsValue;
    id : JsValue;
    name : JsValue;
    className : JsValue;
    placeholder : JsValue;
    selectors : list string;
    value : JsValue;
    required : JsValue;
    visible : bool
}.
End InputDescriptor.

Module ButtonDescriptor.
Record t : Type := {
    tag : string;
    type : JsValue;
    id : JsValue;
    className : JsValue;
    textContent : JsValue;
    value : JsValue;
    selectors : list string;
    visible : bool
}.
End ButtonDescriptor.

(** An entry of [collectedElements]: the three object shapes the page
    function pushes. *)
Inductive Descriptor : Type :=
  | OfForm (d : FormDescriptor.t)
  | OfInput (d : InputDescriptor.t)
  | OfButton (d : ButtonDescriptor.t).

(** The [selectors] array of a descriptor; a form descriptor has none (it
    has one positional [selector] instead). *)
Definition selectors_of (d : Descriptor) : option (list string) :=
  match d with
  | OfForm _ => None
  | OfInput i => Some (InputDescriptor.selectors i)
  | OfButton b => Some (ButtonDescriptor.selectors b)
  end.

(** The selector candidates a descriptor offers, whatever its shape. *)
Definition candidates (d : Descriptor) : list string :=
  match d with
  | OfForm f => [FormDescriptor.selector f]
  | OfInput i => InputDescriptor.selectors i
  | OfButton b => ButtonDescriptor.selectors b
  end.

Definition id_of (d : Descriptor) : JsValue :=
  match d with
  | OfForm f => FormDescriptor.id f
  | OfInput i => InputDescriptor.id i
  | OfButton b => ButtonDescriptor.id b
  end.

(** ** The page function of [extract_page_elements] *)

(** [arr.push(x)] *)
Definition push {A : Type} (arr : list A) (x : A) : list A := arr ++ [x].

(** [if (c) arr.push(x)] *)
Definition push_if {A : Type} (c : bool) (x : A) (arr : list A) : list A :=
  if c then push arr x else arr.

(** [nodes.forEach((x, index) => body)], the body acting on a state; a
    body that throws ends the loop. *)
Fixpoint forEach_from {A S : Type} (body : A → nat → S → Completion S)
    (index : nat) (nodes : list A) (s : S) : Completion S :=
  match nodes with
  | [] => Normal s
  | x :: rest =>
      s' ← body x index s;
      forEach_from body (index + 1)%nat rest s'
  end.

Definition forEach {A S : Type} (body : A → nat → S → Completion S)
    (nodes : list A) (s : S) : Completion S :=
  forEach_from body 0%nat nodes s.

(** [v !== null] *)
Definition is_not_null (v : JsValue) : bool :=
  match v with
  | JsNull => false
  | _ => true
  end.

Definition form_descriptor (form : Element.t) (index : nat) : Descriptor :=
  OfForm {|
    FormDescriptor.tag := "form";
    FormDescriptor.selector :=
      "form:nth-child(" +:+ pretty (index + 1)%nat +:+ ")";
    FormDescriptor.id := Element.id form;
    FormDescriptor.className := Element.className form;
    FormDescriptor.action := Element.action form
  |}.

Definition input_selectorHints (input : Element.t) : list string :=
  let selectorHints := [] in
  let selectorHints :=
    push_if (ToBoolean (Element.id input))
      ("#" +:+ ToString (Element.id input)) selectorHints in
  let selectorHints :=
    push_if (ToBoolean (Element.name input))
      ("[name=" +:+ dquote +:+ ToString (Element.name input)
         +:+ dquote +:+ "]") selectorHints in
  let selectorHints :=
    push_if (ToBoolean (Element.type input))
      ("input[type=" +:+ dquote +:+ ToString (Element.type input)
         +:+ dquote +:+ "]") selectorHints in
  let selectorHints :=
    push_if (ToBoolean (Element.placeholder input))
      ("[placeholder=" +:+ dquote +:+ ToString (Element.placeholder input)
         +:+ dquote +:+ "]") selectorHints in
  selectorHints.

Definition input_descriptor (input : Element.t) : Descriptor :=
  OfInput {|
    InputDescriptor.tag := toLowerCase (Element.tagName input);
    InputDescriptor.type := Element.type input;
    InputDescriptor.id := Element.id input;
    InputDescriptor.name := Element.name input;
    InputDescriptor.className := Element.className input;
    InputDescriptor.placeholder := Element.placeholder input;
    InputDescriptor.selectors := input_selectorHints input;
    InputDescriptor.value := Element.value input;
    InputDescriptor.required := Element.required input;
    InputDescriptor.visible := is_not_null (Element.offsetParent input)
  |}.

(** The tokens of a class name: [className.split(" ").filter(Boolean)]. *)
Definition class_tokens (className : string) : list string :=
  filter_Boolean (split " " className).

Definition button_selectorHints (button : Element.t)
    : Completion (list string) :=
  let selectorHints := [] in
  let selectorHints :=
    push_if (ToBoolean (Element.id button))
      ("#" +:+ ToString (Element.id button)) selectorHints in
  selectorHints ←
    (if ToBoolean (Element.className button) then
       pieces ← className_split (Element.className button) " ";
       let classes := filter_Boolean pieces in
       mret (push_if (0 <? List.length classes)%nat ("." +:+ join "." classes)
               selectorHints)
     else mret selectorHints);
  let selectorHints :=
    push_if (ToBoolean (Element.type button))
      ("[type=" +:+ dquote +:+ ToString (Element.type button)
         +:+ dquote +:+ "]") selectorHints in
  mret selectorHints.

Definition button_descriptor (button : Element.t) : Completion Descriptor :=
  selectorHints ← button_selectorHints button;
  textContent ← textContent_trim (Element.textContent button);
  mret (OfButton {|
    ButtonDescriptor.tag := toLowerCase (Element.tagName button);
    ButtonDescriptor.type := Element.type button;
    ButtonDescriptor.id := Element.id button;
    ButtonDescriptor.className := Element.className button;
    ButtonDescriptor.textContent := textContent;
    ButtonDescriptor.value := Element.value button;
    ButtonDescriptor.selectors := selectorHints;
    ButtonDescriptor.visible := is_not_null (Element.offsetParent button)
  |}).

(** The function given to [page.evaluate]: [focus] is its argument. *)
Definition pageFunction (document : list Element.t) (focus : string)
    : Completion (list Descriptor) :=
  let collectedElements : list Descriptor := [] in
  let formElements := querySelectorAll query_forms document in
  collectedElements ←
    forEach (λ form index acc, mret (push acc (form_descriptor form index)))
      formElements collectedElements;
  let inputElements := querySelectorAll query_inputs document in
  collectedElements ←
    forEach (λ input _ acc, mret (push acc (input_descriptor input)))
      inputElements collectedElements;
  let buttonElements := querySelectorAll query_buttons document in
  collectedElements ←
    forEach (λ button _ acc,
               descriptor ← button_descriptor button;
               mret (push acc descriptor))
      buttonElements collectedElements;
  mret collectedElements.

(** ** Buffers *)

Definition base64_alphabet : string :=
  "ABCDEFGHIJKLMNOPQRSTUVWXYZabcdefghijklmnopqrstuvwxyz0123456789+/".

Definition base64_digit (n : N) : ascii :=
  match String.get (N.to_nat n) base64_alphabet with
  | Some c => c
  | None => "="%char
  end.

(** [buffer.toString("base64")]: three bytes give four digits, and the last
    group is padded with [=]. *)
Fixpoint toString_base64 (buffer : string) : string :=
  match buffer with
  | EmptyString => EmptyString
  | String a EmptyString =>
      let x := N_of_ascii a in
      String (base64_digit (N.shiftr x 2))
        (String (base64_digit (N.shiftl (N.land x 3) 4)) "==")
  | String a (String b EmptyString) =>
      let x := N_of_ascii a in
      let y := N_of_ascii b in
      String (base64_digit (N.shiftr x 2))
        (String (base64_digit (N.lor (N.shiftl (N.land x 3) 4) (N.shiftr y 4)))
           (String (base64_digit (N.shiftl (N.land y 15) 2)) "="))
  | String a (String b (String c rest)) =>
      let x := N_of_ascii a in
      let y := N_of_ascii b in
      let z := N_of_ascii c in
      String (base64_digit (N.shiftr x 2))
        (String (base64_digit (N.lor (N.shiftl (N.land x 3) 4) (N.shiftr y 4)))
           (String (base64_digit
                      (N.lor (N.shiftl (N.land y 15) 2) (N.shiftr z 6)))
              (String (base64_digit (N.land z 63)) (toString_base64 rest))))
  end.

(** ** Faults, events and the environment *)

(** A thrown JavaScript error; the handlers of the source read only its
    [message]. *)
Record Error : Type := { message : string }.

(** How an awaited call ends. *)
Inductive Outcome (A : Type) : Type :=
  | Returned (a : A)
  | Threw (error : Error).
Arguments Returned {A} a.
Arguments Threw {A} error.

(** What the program does to the outside, in the order it does it: the
    calls on the Playwright page and browser, and the terminal output
    (spinners, [console.log], boxed reports, the [readline] question). *)
Inductive Event : Type :=
  | Goto (url : string) (timeout : Z)
  | WaitForSelector (selector : string) (timeout : Z)
  | Click (selector : string)
  | Fill (selector : string) (text : string)
  | WaitForTimeout (ms : Z)
  | Screenshot (path : string)
  | Evaluate (script : string)
  | EvaluateFunction (arg : string)
  | Close
  | SpinnerStart (text : string)
  | SpinnerSucceed (text : string)
  | SpinnerFail (text : string)
  | ConsoleLog (text : string)
  | ConsoleBox (text : string)
  | Question (prompt : string).

(** The events that act on the page: a click, or the clearing or filling of
    a field. *)
Definition is_interaction (ev : Event) : bool :=
  match ev with
  | Click _ | Fill _ _ => true
  | _ => false
  end.

(** JSON values: the arguments the planner supplies to a tool. *)
#[warnings="-register-all"] Inductive Json : Type :=
  | JNull
  | JBool (b : bool)
  | JNumber (n : Z)
  | JString (s : string)
  | JArray (items : list Json)
  | JObject (fields : list (string * Json)).

(** What a tool hands back to the planner. *)
Inductive ToolResult : Type :=
  | Text (s : string)
  | Image (source_type media_type data description : string)
  | Elements (elements : list Descriptor).

(** The planner's reply in one turn. *)
Inductive Decision : Type :=
  | CallTool (name : string) (arguments : gmap string Json)
  | FinalOutput (finalOutput : option string).

(** Transcript entries of one task. *)
Inductive Entry : Type :=
  | TaskEntry (instruction : string)
  | ToolCallEntry (name : string) (arguments : gmap string Json)
  | ToolResultEntry (result : ToolResult).

(** The collaborators of the program, over a state of the outside world:
    the browser page (each call may change the world and may throw), the
    clock, the operator at the terminal and the planner. [env_document] is
    the document a page function is evaluated on, and [env_page_error] the
    error with which [page.evaluate] rejects when the page function throws
    a [TypeError] with the given message. [env_tool_error] is the text in
    which the agent library reports a fault of a tool to the planner. *)
Record Environment (World : Type) : Type := {
  env_goto : string → Z → World → World * Outcome unit;
  env_waitForSelector : string → Z → World → World * Outcome unit;
  env_click : string → World → World * Outcome unit;
  env_fill : string → string → World → World * Outcome unit;
  env_waitForTimeout : Z → World → World * Outcome unit;
  env_screenshot : string → World → World * Outcome string;
  env_evaluate : string → World → World * Outcome unit;
  env_document : World → World * Outcome (list Element.t);
  env_close : World → World * Outcome unit;
  env_now : World → Z;
  env_answer : string → World → World * string;
  env_planner : list Entry → World → World * Outcome Decision;
  env_page_error : string → Error;
  env_tool_error : Error → string
}.
Arguments env_goto {World} _ _ _ _.
Arguments env_waitForSelector {World} _ _ _ _.
Arguments env_click {World} _ _ _.
Arguments env_fill {World} _ _ _ _.
Arguments env_waitForTimeout {World} _ _ _.
Arguments env_screenshot {World} _ _ _.
Arguments env_evaluate {World} _ _ _.
Arguments env_document {World} _ _.
Arguments env_close {World} _ _.
Arguments env_now {World} _ _.
Arguments env_answer {World} _ _ _.
Arguments env_planner {World} _ _ _.
Arguments env_page_error {World} _ _.
Arguments env_tool_error {World} _ _.

(** The session: the world and the events so far. *)
Record Session (World : Type) : Type := {
  world : World;
  trace : list Event
}.
Arguments world {World} _.
Arguments trace {World} _.
Arguments Build_Session {World} _ _.

(** ** Parameter schemas (zod) *)

(** The schema constructors the tools use: [z.string()], [z.number()],
    [.nullable()] and [.default(v)]. *)
Inductive ZodType : Type :=
  | ZString
  | ZNumber
  | ZNullable (inner : ZodType)
  | ZDefault (inner : ZodType) (value : Json).

(** Modelled from the spec: the zod library is not part of the sources; the
    spec's Tool Descriptor has a parameter schema that is "named, typed,
    with constraints (required/optional, nullable, default)". A field is
    parsed from the value under its key, [None] when the key is absent: a
    string or number schema requires a value of that type, a nullable one
    also takes [null], a default one fills in an absent value. The result
    is [None] when the value is rejected. *)
Fixpoint zod_parse (t : ZodType) (input : option Json) : option Json :=
  match t with
  | ZString =>
      match input with
      | Some (JString s) => Some (JString s)
      | _ => None
      end
  | ZNumber =>
      match input with
      | Some (JNumber n) => Some (JNumber n)
      | _ => None
      end
  | ZNullable inner =>
      match input with
      | Some JNull => Some JNull
      | _ => zod_parse inner input
      end
  | ZDefault inner value =>
      match input with
      | None => Some value
      | Some _ => zod_parse inner input
      end
  end.

(** Modelled from the spec: [z.object(shape)] of the zod library, which is
    not part of the sources. Every named field of the shape is parsed, and
    the arguments are rejected when one of them is; keys outside the shape
    are dropped. *)
Fixpoint zod_object (shape : list (string * ZodType))
    (input : gmap string Json) : option (gmap string Json) :=
  match shape with
  | [] => Some ∅
  | (key, t) :: rest =>
      match zod_parse t (input !! key), zod_object rest input with
      | Some v, Some parsed => Some (<[key := v]> parsed)
      | _, _ => None
      end
  end.

(** ** The session monad *)

(** A computation over the session that returns a value or throws. The
    events of a computation that throws stay in the trace. *)
Definition M (World A : Type) : Type :=
  Session World → Session World * Outcome A.

#[export] Instance M_ret {World : Type} : MRet (M World) :=
  λ A a s, (s, Returned a).

#[export] Instance M_bind {World : Type} : MBind (M World) :=
  λ A B f m s,
    match m s with
    | (s', Returned a) => f a s'
    | (s', Threw e) => (s', Threw e)
    end.

(** [throw e] *)
Definition throw {World A : Type} (e : Error) : M World A :=
  λ s, (s, Threw e).

(** [try { body } catch (error) { handler }] *)
Definition try_catch {World A : Type} (body : M World A)
    (handler : Error → M World A) : M World A :=
  λ s,
    match body s with
    | (s', Returned a) => (s', Returned a)
    | (s', Threw e) => handler e s'
    end.

(** Terminal output: recorded, never throws. *)
Definition emit {World : Type} (ev : Event) : M World unit :=
  λ s, (Build_Session (world s) (trace s ++ [ev]), Returned tt).

(** A call on a collaborator: recorded, then answered by the environment. *)
Definition perform {World A : Type} (ev : Event)
    (respond : World → World * Outcome A) : M World A :=
  λ s,
    let '(w, r) := respond (world s) in
    (Build_Session w (trace s ++ [ev]), r).

Section Agent.

Context {World : Type} (env : Environment World).

Local Abbreviation M := (M World).

(** *** The page and the browser *)

Definition page_goto (url : string) (timeout : Z) : M unit :=
  perform (Goto url timeout) (env_goto env url timeout).

Definition page_waitForSelector (selector : string) (timeout : Z) : M unit :=
  perform (WaitForSelector selector timeout)
    (env_waitForSelector env selector timeout).

Definition page_click (selector : string) : M unit :=
  perform (Click selector) (env_click env selector).

Definition page_fill (selector text : string) : M unit :=
  perform (Fill selector text) (env_fill env selector text).

Definition page_waitForTimeout (ms : Z) : M unit :=
  perform (WaitForTimeout ms) (env_waitForTimeout env ms).

Definition page_screenshot (path : string) : M string :=
  perform (Screenshot path) (env_screenshot env path).

Definition page_evaluate (script : string) : M unit :=
  perform (Evaluate script) (env_evaluate env script).

(** [page.evaluate(f, arg)]: [f] runs on the page's document, and the call
    rejects when [f] throws. *)
Definition page_evaluate_function {A : Type}
    (f : list Element.t → string → Completion A) (arg : string) : M A :=
  document ← perform (EvaluateFunction arg) (env_document env);
  match f document arg with
  | Normal a => mret a
  | TypeError message => throw (env_page_error env message)
  end.

Definition browser_close : M unit :=
  perform Close (env_close env).

(** [Date.now()] *)
Definition Date_now : M Z :=
  λ s, (s, Returned (env_now env (world s))).

(** *** The tools *)

(** [path || `screenshot-${Date.now()}.png`] *)
Definition screenshot_path (path : string) : M string :=
  if truthy (Some path) then mret path
  else now ← Date_now; mret ("screenshot-" +:+ pretty now +:+ ".png").

Definition takeScreenshot_execute (path : string) : M ToolResult :=
  emit (SpinnerStart "📸 Taking screenshot...");;
  target ← screenshot_path path;
  screenshotBytes ← page_screenshot target;
  page_waitForTimeout 500;;
  let base64 := toString_base64 screenshotBytes in
  shown ← screenshot_path path;
  emit (SpinnerSucceed ("📸 Screenshot: " +:+ shown));;
  mret (Image "base64" "image/png" base64 "Current page screenshot").

Definition navigate_execute (url : string) : M ToolResult :=
  emit (SpinnerStart ("🌐 " +:+ url +:+ "..."));;
  try_catch
    (page_goto url 30000;;
     page_waitForTimeout 2000;;
     emit (SpinnerSucceed ("🌐 Loaded: " +:+ url));;
     mret (Text ("Successfully navigated to: " +:+ url)))
    (λ error,
       emit (SpinnerFail ("❌ Failed: " +:+ url));;
       mret (Text ("Failed to navigate to " +:+ url +:+ ": "
                     +:+ message error))).

Definition clickOnElement_execute (selector : string) : M ToolResult :=
  emit (SpinnerStart ("👆 " +:+ selector +:+ "..."));;
  try_catch
    (page_waitForSelector selector 10000;;
     page_click selector;;
     page_waitForTimeout 1000;;
     emit (SpinnerSucceed ("👆 Clicked: " +:+ selector));;
     mret (Text ("Successfully clicked on element: " +:+ selector)))
    (λ error,
       emit (SpinnerFail ("❌ Failed: " +:+ selector));;
       mret (Text ("Failed to click element " +:+ selector +:+ ": "
                     +:+ message error))).

Definition type_execute (selector text : string) : M ToolResult :=
  emit (SpinnerStart ("⌨️  " +:+ selector +:+ "..."));;
  try_catch
    (page_waitForSelector selector 10000;;
     page_fill selector "";;
     page_fill selector text;;
     page_waitForTimeout 500;;
     emit (SpinnerSucceed ("⌨️  Typed: " +:+ text));;
     mret (Text ("Successfully typed " +:+ dquote +:+ text +:+ dquote
                   +:+ " into element: " +:+ selector)))
    (λ error,
       emit (SpinnerFail ("❌ Failed: " +:+ selector));;
       mret (Text ("Failed to type into element " +:+ selector +:+ ": "
                     +:+ message error))).

Definition scroll_execute (x y : Z) : M ToolResult :=
  emit (SpinnerStart "📜 Scrolling...");;
  page_evaluate ("window.scrollBy(" +:+ pretty x +:+ ", " +:+ pretty y
                   +:+ ");");;
  page_waitForTimeout 1000;;
  emit (SpinnerSucceed ("📜 Scrolled: " +:+ pretty x +:+ "," +:+ pretty y));;
  mret (Text ("Scrolled by x: " +:+ pretty x +:+ ", y: " +:+ pretty y)).

Definition wait_execute (duration : Z) : M ToolResult :=
  emit (SpinnerStart ("⏱️  " +:+ pretty duration +:+ "ms..."));;
  page_waitForTimeout duration;;
  emit (SpinnerSucceed "⏱️  Done");;
  mret (Text ("Waited for " +:+ pretty duration +:+ " milliseconds.")).

(** [selectionArea] is a string or [null] ([None]); the default of the
    destructuring pattern is for [undefined], which the schema has already
    replaced. *)
Definition extractPageElements_execute (selectionArea : option string)
    : M ToolResult :=
  emit (SpinnerStart "🔍 Analyzing...");;
  extractedElements ←
    page_evaluate_function pageFunction (or_else selectionArea "form");
  emit (SpinnerSucceed ("🔍 Found: "
                          +:+ pretty (List.length extractedElements)
                          +:+ " elements"));;
  mret (Elements extractedElements).

(** [askUser({ question })]: the boxed question, the prompt, and the
    operator's line, trimmed. *)
Definition askUser (question : string) : M string :=
  emit (ConsoleBox ("🤔 " +:+ question));;
  answer ← perform (Question "->  ")
             (λ w, let '(w', line) := env_answer env "->  " w in
                   (w', Returned line));
  mret (trim answer).

Definition askUser_execute (question : string) : M ToolResult :=
  answer ← askUser question;
  mret (Text answer).

(** *** The tool catalog *)

(** [tool({ name, description, parameters, execute })]: [parameters] is the
    shape given to [z.object], and [execute] receives the parsed
    arguments. *)
Record Tool : Type := {
  name : string;
  description : string;
  parameters : list (string * ZodType);
  execute : gmap string Json → M ToolResult
}.

(** The fields of the parsed arguments, at the TypeScript types that the
    schema gives them ([string], [number], [string | null]). *)
Definition arg_string (args : gmap string Json) (key : string)
    : option string :=
  match args !! key with
  | Some (JString s) => Some s
  | _ => None
  end.

Definition arg_number (args : gmap string Json) (key : string) : option Z :=
  match args !! key with
  | Some (JNumber n) => Some n
  | _ => None
  end.

Definition arg_nullable_string (args : gmap string Json) (key : string)
    : option (option string) :=
  match args !! key with
  | Some (JString s) => Some (Some s)
  | Some JNull => Some None
  | _ => None
  end.

(** Arguments that are not of the type of the schema: excluded by the type
    of [execute], and by validation at run time. *)
Definition ill_typed {A : Type} : M A :=
  throw {| message := "arguments do not have the type of the schema" |}.

Definition takeScreenshotTool : Tool := {|
  name := "take_screenshot";
  description :=
    "Capture a screenshot of the current page for visual analysis.";
  parameters := [("path", ZString)];
  execute := λ args,
    match arg_string args "path" with
    | Some path => takeScreenshot_execute path
    | None => ill_typed
    end
|}.

Definition navigateTool : Tool := {|
  name := "navigate";
  description := "Navigate to a specific URL.";
  parameters := [("url", ZString)];
  execute := λ args,
    match arg_string args "url" with
    | Some url => navigate_execute url
    | None => ill_typed
    end
|}.

Definition clickOnElementTool : Tool := {|
  name := "clickOnElement";
  description := "Click on a specific element using CSS selector.";
  parameters := [("selector", ZString)];
  execute := λ args,
    match arg_string args "selector" with
    | Some selector => clickOnElement_execute selector
    | None => ill_typed
    end
|}.

Definition typeTool : Tool := {|
  name := "type";
  description := "Type text into a specific input field using CSS selector.";
  parameters := [("selector", ZString); ("text", ZString)];
  execute := λ args,
    match arg_string args "selector", arg_string args "text" with
    | Some selector, Some text => type_execute selector text
    | _, _ => ill_typed
    end
|}.

Definition scrollTool : Tool := {|
  name := "scroll";
  description := "Scroll the page by a specific amount.";
  parameters := [("x", ZNumber); ("y", ZNumber)];
  execute := λ args,
    match arg_number args "x", arg_number args "y" with
    | Some x, Some y => scroll_execute x y
    | _, _ => ill_typed
    end
|}.

Definition waitTool : Tool := {|
  name := "wait";
  description := "Wait for a specific duration.";
  parameters := [("duration", ZNumber)];
  execute := λ args,
    match arg_number args "duration" with
    | Some duration => wait_execute duration
    | None => ill_typed
    end
|}.

Definition extractPageElements : Tool := {|
  name := "extract_page_elements";
  description :=
    "Extracts structured information from the DOM, focusing on forms, inputs, and buttons relevant to the task.";
  parameters :=
    [("selectionArea", ZDefault (ZNullable ZString) (JString "form"))];
  execute := λ args,
    match arg_nullable_string args "selectionArea" with
    | Some selectionArea => extractPageElements_execute selectionArea
    | None => ill_typed
    end
|}.

Definition askUserTool : Tool := {|
  name := "ask_user";
  description := "Ask the user for more information if needed.";
  parameters := [("question", ZString)];
  execute := λ args,
    match arg_string args "question" with
    | Some question => askUser_execute question
    | None => ill_typed
    end
|}.

(** [new Agent({ name, instructions, tools, model })]. The instructions and
    the model name are read by the planner only. *)
Record AgentConfig : Type := {
  agent_name : string;
  tools : list Tool
}.

Definition agent : AgentConfig := {|
  agent_name := "Website Automation Agent";
  tools :=
    [navigateTool; extractPageElements; clickOnElementTool; typeTool;
     waitTool; scrollTool; takeScreenshotTool; askUserTool]
|}.

(** *** Dispatch and the planning loop *)

(** Modelled from the spec: the tool object that [tool] of the agent
    library builds is not part of the sources. "Parameter schema is
    validated before execution function runs; invalid arguments never
    reach it": the arguments are parsed against the schema, the execution
    function is applied to the parsed arguments, and rejected arguments
    are a fault. [invoke] is this step alone, before the tool object turns
    a fault into a result. *)
Definition invoke (t : Tool) (input : gmap string Json) : M ToolResult :=
  match zod_object (parameters t) input with
  | Some parsed => execute t parsed
  | None => throw {| message := "Invalid arguments for tool " +:+ name t |}
  end.

(** Modelled from the spec: the call of the tool object, which is not part
    of the sources. A failure of the call is "captured by the tool,
    returned as a descriptive failure string in place of a success result"
    and "propagated to the planner as ordinary transcript content": a
    fault of [invoke] becomes the text result that the library's error
    function gives for it. *)
Definition dispatch (t : Tool) (input : gmap string Json) : M ToolResult :=
  try_catch (invoke t input)
    (λ error, mret (Text (env_tool_error env error))).

Definition find_tool (catalog : list Tool) (n : string) : option Tool :=
  List.find (λ t, bool_decide (name t = n)) catalog.

Definition ask_planner (transcript : list Entry) : M Decision :=
  λ s,
    let '(w, r) := env_planner env transcript (world s) in
    (Build_Session w (trace s), r).

(** Modelled from the spec: the planning loop of the agent library is not
    part of the sources. Each turn the planner sees the transcript and
    returns one tool invocation or a final answer; an invocation is
    validated, dispatched and its result appended; the turn budget is
    decremented once per round trip and the task aborts with a
    budget-exceeded fault when it reaches zero; a fault of planning, or an
    invocation of a tool that is not in the catalog, aborts the task. *)
Fixpoint run_turns (catalog : list Tool) (budget : nat)
    (transcript : list Entry) : M (option string) :=
  match budget with
  | O => throw {| message := "Max turns exceeded" |}
  | S budget' =>
      decision ← ask_planner transcript;
      match decision with
      | FinalOutput finalOutput => mret finalOutput
      | CallTool n arguments =>
          match find_tool catalog n with
          | None => throw {| message := "Tool " +:+ n +:+ " not found" |}
          | Some t =>
              result ← dispatch t arguments;
              run_turns catalog budget'
                (transcript ++ [ToolCallEntry n arguments;
                                ToolResultEntry result])
          end
      end
  end.

(** [runner.run(agent, query, { maxTurns })], giving [result.finalOutput]. *)
Definition Runner_run (a : AgentConfig) (query : string) (maxTurns : nat)
    : M (option string) :=
  run_turns (tools a) maxTurns [TaskEntry query].

(** *** The task *)

(** [main], over the runner it calls. *)
Definition main_with (run : AgentConfig → string → nat → M (option string))
    : M unit :=
  query ← askUser "What do you want to automate today?";
  query ←
    (if negb (truthy (Some query))
        || bool_decide (String.length (trim query) = 0%nat)
     then
       let query := "Automate the login process on the website." in
       emit (ConsoleLog ("⚠️  Using default task: " +:+ query));;
       mret query
     else mret query);
  emit (ConsoleLog ("🚀 Task: " +:+ query));;
  try_catch
    (finalOutput ← run agent query 30%nat;
     emit (ConsoleBox ("🎉 Result:" +:+ newline
                         +:+ or_else finalOutput
                               "Task completed successfully!")))
    (λ error,
       emit (ConsoleBox ("❌ Error:" +:+ newline +:+ message error)));;
  emit (SpinnerStart "👋 Closing...");;
  browser_close;;
  emit (SpinnerSucceed "👋 Done!").

Definition main : M unit := main_with Runner_run.

End Agent.

(** ** What the statements below speak of *)

(** The text of the result box for the way the run ended. *)
Definition report (outcome : Outcome (option string)) : string :=
  match outcome with
  | Returned finalOutput =>
      "🎉 Result:" +:+ newline
        +:+ or_else finalOutput "Task completed successfully!"
  | Threw error => "❌ Error:" +:+ newline +:+ message error
  end.

(** The session and the instruction with which [main] calls the runner:
    the question has been asked, the operator's line read and trimmed, the
    default put in its place when it is empty, and the task line printed. *)
Definition intake {World : Type} (env : Environment World)
    (s : Session World) : Session World * string :=
  let '(w, line) := env_answer env "->  " (world s) in
  let asked :=
    trace s ++ [ConsoleBox "🤔 What do you want to automate today?";
                Question "->  "] in
  let query := trim line in
  if negb (truthy (Some query))
     || bool_decide (String.length (trim query) = 0%nat)
  then
    (Build_Session w
       (asked
        ++ [ConsoleLog
              "⚠️  Using default task: Automate the login process on the website.";
            ConsoleLog "🚀 Task: Automate the login process on the website."]),
     "Automate the login process on the website.")
  else
    (Build_Session w (asked ++ [ConsoleLog ("🚀 Task: " +:+ query)]), query).

(** What [main] does once the runner has ended, in either way: the result
    box, then the teardown. *)
Definition conclude {World : Type} (env : Environment World)
    (ended : Session World * Outcome (option string))
    : Session World * Outcome unit :=
  let '(s1, outcome) := ended in
  let '(w, closed) := env_close env (world s1) in
  match closed with
  | Returned _ =>
      (Build_Session w
         (trace s1
          ++ [ConsoleBox (report outcome); SpinnerStart "👋 Closing...";
              Close; SpinnerSucceed "👋 Done!"]),
       Returned tt)
  | Threw error =>
      (Build_Session w
         (trace s1
          ++ [ConsoleBox (report outcome); SpinnerStart "👋 Closing...";
              Close]),
       Threw error)
  end.

(** Whether an element offers the page function a hint for a selector
    candidate: as an input (id, name, type, placeholder), and as a
    clickable control (id, a token in a class name that is a string,
    type). *)
Definition input_has_hint (e : Element.t) : bool :=
  ToBoolean (Element.id e) || ToBoolean (Element.name e)
  || ToBoolean (Element.type e) || ToBoolean (Element.placeholder e).

Definition button_has_hint (e : Element.t) : bool :=
  ToBoolean (Element.id e)
  || match Element.className e with
     | JsString className => (0 <? List.length (class_tokens className))%nat
     | _ => false
     end
  || ToBoolean (Element.type e).

(** The three enumerations of the page function, each in document order.
    The enumeration of the clickable controls ends at the first control
    whose descriptor cannot be built. *)
Definition form_enumeration (document : list Element.t) : list Descriptor :=
  imap (λ index form, form_descriptor form index)
    (filter (λ e, matches query_forms e) document).

Definition input_enumeration (document : list Element.t) : list Descriptor :=
  input_descriptor <$> filter (λ e, matches query_inputs e) document.

Definition button_enumeration (document : list Element.t)
    : Completion (list Descriptor) :=
  mapM button_descriptor (filter (λ e, matches query_buttons e) document).

(** ** A scripted environment *)

(** A world in which everything is fixed in advance: the document of the
    page, the selectors that become visible, whether a capture succeeds,
    the clock, the lines the operator will type and the replies the planner
    will give. *)
Record Script : Type := {
  script_document : list Element.t;
  script_visible : list string;
  script_capture : bool;
  script_clock : Z;
  script_lines : list string;
  script_replies : list Decision
}.

Definition tick (ms : Z) (w : Script) : Script := {|
  script_document := script_document w;
  script_visible := script_visible w;
  script_capture := script_capture w;
  script_clock := script_clock w + ms;
  script_lines := script_lines w;
  script_replies := script_replies w
|}.

Definition scripted : Environment Script := {|
  env_goto := λ _ _ w, (w, Returned tt);
  env_waitForSelector := λ selector timeout w,
    if bool_decide (selector ∈ script_visible w) then (w, Returned tt)
    else (tick timeout w,
          Threw {| message := "Timeout " +:+ pretty timeout
                                +:+ "ms exceeded." |});
  env_click := λ _ w, (w, Returned tt);
  env_fill := λ _ _ w, (w, Returned tt);
  env_waitForTimeout := λ ms w, (tick ms w, Returned tt);
  env_screenshot := λ _ w,
    if script_capture w then (w, Returned "PNG")
    else (w, Threw {| message := "Unable to capture screenshot" |});
  env_evaluate := λ _ w, (w, Returned tt);
  env_document := λ w, (w, Returned (script_document w));
  env_close := λ w, (w, Returned tt);
  env_now := script_clock;
  env_answer := λ _ w,
    match script_lines w with
    | [] => (w, EmptyString)
    | line :: rest =>
        ({| script_document := script_document w;
            script_visible := script_visible w;
            script_capture := script_capture w;
            script_clock := script_clock w;
            script_lines := rest;
            script_replies := script_replies w |}, line)
    end;
  env_planner := λ _ w,
    match script_replies w with
    | [] => (w, Returned (FinalOutput None))
    | reply :: rest =>
        ({| script_document := script_document w;
            script_visible := script_visible w;
            script_capture := script_capture w;
            script_clock := script_clock w;
            script_lines := script_lines w;
            script_replies := rest |}, Returned reply)
    end;
  env_page_error := λ message,
    {| message := "page.evaluate: TypeError: " +:+ message |};
  env_tool_error := λ error,
    "An error occurred while running the tool. Please try again. Error: "
      +:+ message error
|}.

(** An HTML element with the given names and identity properties, no
    value and no text, laid out on the page. *)
Definition element (localName : string) (typeAttribute : option string)
    (tagName : string) (id name type placeholder className : JsValue)
    : Element.t := {|
  Element.html := true;
  Element.localName := localName;
  Element.typeAttribute := typeAttribute;
  Element.tagName := tagName;
  Element.id := id;
  Element.name := name;
  Element.type := type;
  Element.placeholder := placeholder;
  Element.className := className;
  Element.value := JsString EmptyString;
  Element.required := JsBoolean false;
  Element.offsetParent := JsObject;
  Element.textContent := JsString EmptyString;
  Element.action := JsUndefined
|}.

(** A login page: a form with an e-mail field and a submit control, which
    is both an [input] and a clickable control. *)
Definition login_page : list Element.t :=
  [element "form" None "FORM" (JsString "login") (JsString EmptyString)
     JsUndefined JsUndefined (JsString EmptyString);
   element "input" (Some "email") "INPUT" (JsString "email")
     (JsString "email") (JsString "email") (JsString "Enter email")
     (JsString EmptyString);
   element "input" (Some "submit") "INPUT" (JsString "submit")
     (JsString EmptyString) (JsString "submit") (JsString EmptyString)
     (JsString "btn btn-primary")].

(** An element named [input] in the SVG namespace: its id is the empty
    string, its class name is an object (an [SVGAnimatedString]), and it
    has none of the properties of a form control. *)
Definition foreign_input : Element.t := {|
  Element.html := false;
  Element.localName := "input";
  Element.typeAttribute := None;
  Element.tagName := "input";
  Element.id := JsString EmptyString;
  Element.name := JsUndefined;
  Element.type := JsUndefined;
  Element.placeholder := JsUndefined;
  Element.className := JsObject;
  Element.value := JsUndefined;
  Element.required := JsUndefined;
  Element.offsetParent := JsUndefined;
  Element.textContent := JsString EmptyString;
  Element.action := JsUndefined
|}.

(** An element named [button] in the SVG namespace, with an id. *)
Definition foreign_button : Element.t := {|
  Element.html := false;
  Element.localName := "button";
  Element.typeAttribute := None;
  Element.tagName := "button";
  Element.id := JsString "zoom";
  Element.name := JsUndefined;
  Element.type := JsUndefined;
  Element.placeholder := JsUndefined;
  Element.className := JsObject;
  Element.value := JsUndefined;
  Element.required := JsUndefined;
  Element.offsetParent := JsUndefined;
  Element.textContent := JsString EmptyString;
  Element.action := JsUndefined
|}.

(** What the page function returns on the login page, and on the login page
    after the foreign input. *)
Definition login_descriptors : list Descriptor :=
  Eval vm_compute in
    match pageFunction login_page "form" with
    | Normal elements => elements
    | TypeError _ => []
    end.

Definition mixed_descriptors : list Descriptor :=
  Eval vm_compute in
    match pageFunction (foreign_input :: login_page) "inputs" with
    | Normal elements => elements
    | TypeError _ => []
    end.

Definition script (document : list Element.t) (visible : list string)
    (capture : bool) (lines : list string) (replies : list Decision)
    : Session Script :=
  Build_Session
    {| script_document := document;
       script_visible := visible;
       script_capture := capture;
       script_clock := 1700000000000;
       script_lines := lines;
       script_replies := replies |}
    [].

(** ** Selectors as text *)

(** The CSS text of a selector of the fragment, written as the source
    writes its queries. *)
Definition selector_text (sel : Selector) : string :=
  match sel with
  | TypeSelector tag => tag
  | TypeAttrSelector tag v =>
      tag +:+ "[type=" +:+ dquote +:+ v +:+ dquote +:+ "]"
  end.

Definition query_text (query : list Selector) : string :=
  join ", " (selector_text <$> query).

(** What a stripping function has to satisfy: it removes a non-empty prefix,
    and what it does is decided by that prefix. *)
Definition strips (strip : string → option string) : Prop :=
  ∀ s r, strip s = Some r →
    ∃ p, p ≠ EmptyString ∧ s = p +:+ r ∧ ∀ u, strip (s +:+ u) = Some (r +:+ u).

(** Whether the character [c] occurs in [s]. *)
Fixpoint occurs (c : ascii) (s : string) : bool :=
  match s with
  | EmptyString => false
  | String a r => Ascii.eqb a c || occurs c r
  end.

(** The [tag] of a descriptor. *)
Definition tag_of (d : Descriptor) : string :=
  match d with
  | OfForm f => FormDescriptor.tag f
  | OfInput i => InputDescriptor.tag i
  | OfButton b => ButtonDescriptor.tag b
  end.

(** ** Two more scripted environments *)

Definition page_closed : Error :=
  {| message := "Target page, context or browser has been closed" |}.

(** The scripted world after the page has been closed: every call on the
    page throws. *)
Definition closed_page : Environment Script := {|
  env_goto := λ _ _ w, (w, Threw page_closed);
  env_waitForSelector := λ _ _ w, (w, Threw page_closed);
  env_click := λ _ w, (w, Threw page_closed);
  env_fill := λ _ _ w, (w, Threw page_closed);
  env_waitForTimeout := λ _ w, (w, Threw page_closed);
  env_screenshot := λ _ w, (w, Threw page_closed);
  env_evaluate := λ _ w, (w, Threw page_closed);
  env_document := λ w, (w, Threw page_closed);
  env_close := env_close scripted;
  env_now := env_now scripted;
  env_answer := env_answer scripted;
  env_planner := env_planner scripted;
  env_page_error := env_page_error scripted;
  env_tool_error := env_tool_error scripted
|}.

(** The scripted world over numeric fields: a field can be cleared, and
    filling it with text throws. *)
Definition numeric_fields : Environment Script := {|
  env_goto := env_goto scripted;
  env_waitForSelector := env_waitForSelector scripted;
  env_click := env_click scripted;
  env_fill := λ _ text w,
    match text with
    | EmptyString => (w, Returned tt)
    | String _ _ =>
        (w, Threw {| message := "Cannot type text into input[type=number]" |})
    end;
  env_waitForTimeout := env_waitForTimeout scripted;
  env_screenshot := env_screenshot scripted;
  env_evaluate := env_evaluate scripted;
  env_document := env_document scripted;
  env_close := env_close scripted;
  env_now := env_now scripted;
  env_answer := env_answer scripted;
  env_planner := env_planner scripted;
  env_page_error := env_page_error scripted;
  env_tool_error := env_tool_error scripted
|}.

(** * Properties *)

(** Unfold the monad, so that a computation reduces on a given session. *)
Ltac run_session :=
  unfold mbind, M_bind, mret, M_ret, try_catch, throw, emit, perform;
  simpl.

(** ** The page function *)

Lemma forEach_from_push {A B : Type} (f : A → nat → B) (k : nat)
    (nodes : list A) (acc : list B) :
  forEach_from (λ x index acc, mret (push acc (f x index))) k nodes acc
  = Normal (acc ++ imap (λ i x, f x (k + i)%nat) nodes).
Proof.
  revert k acc. induction nodes as [|x nodes IH]; intros k acc; simpl.
  - by rewrite app_nil_r.
  - rewrite IH. unfold push. rewrite <- app_assoc. simpl.
    rewrite Nat.add_0_r. do 3 f_equal.
    apply imap_ext. intros i y _. simpl. f_equal. lia.
Qed.

Lemma forEach_push_map {A B : Type} (f : A → B) (nodes : list A)
    (acc : list B) :
  forEach (λ x (_ : nat) acc, mret (push acc (f x))) nodes acc
  = Normal (acc ++ (f <$> nodes)).
Proof.
  unfold forEach. rewrite (forEach_from_push (λ x _, f x)).
  do 2 f_equal. rewrite <- imap_const. by apply imap_ext.
Qed.

Lemma forEach_from_push_mapM {A B : Type} (f : A → Completion B) (k : nat)
    (nodes : list A) (acc : list B) :
  forEach_from (λ x (_ : nat) acc, d ← f x; mret (push acc d)) k nodes acc
  = (l ← mapM f nodes; mret (acc ++ l)).
Proof.
  revert k acc. induction nodes as [|x nodes IH]; intros k acc; simpl.
  - unfold mret, Completion_ret. by rewrite app_nil_r.
  - destruct (f x) as [d|message]; simpl; [|done].
    rewrite IH. destruct (mapM f nodes) as [l|message]; simpl; [|done].
    unfold mret, Completion_ret, push. by rewrite <- app_assoc.
Qed.

Lemma mapM_Normal_Forall2 {A B : Type} (f : A → Completion B) (l : list A)
    (k : list B) :
  mapM f l = Normal k → Forall2 (λ x y, f x = Normal y) l k.
Proof.
  revert k. induction l as [|x l IH]; intros k H; simpl in H.
  - injection H as <-. constructor.
  - destruct (f x) as [y|message] eqn:Hx; simpl in H; [|done].
    destruct (mapM f l) as [k'|message]; simpl in H; [|done].
    injection H as <-. constructor; [done|]. by apply IH.
Qed.

(** The page function returns the three enumerations, one after the other,
    when the enumeration of the clickable controls completes, and throws
    what that enumeration throws. *)
Lemma pageFunction_enumerations (document : list Element.t) (focus : string) :
  pageFunction document focus
  = (buttons ← button_enumeration document;
     mret (form_enumeration document ++ input_enumeration document
             ++ buttons)).
Proof.
  unfold pageFunction, form_enumeration, input_enumeration,
    button_enumeration, querySelectorAll.
  cbv zeta.
  unfold forEach.
  rewrite (forEach_from_push (λ form index, form_descriptor form index)).
  cbn [mbind Completion_bind app].
  pose proof (forEach_push_map input_descriptor) as Hinputs.
  unfold forEach in Hinputs. rewrite Hinputs. clear Hinputs.
  cbn [mbind Completion_bind].
  rewrite forEach_from_push_mapM.
  destruct (mapM button_descriptor _) as [buttons|message]; simpl; [|done].
  unfold mret, Completion_ret. by rewrite <- app_assoc.
Qed.

(** The argument of the page function plays no part in its result. *)
Lemma pageFunction_focus (document : list Element.t) (focus focus' : string) :
  pageFunction document focus = pageFunction document focus'.
Proof. by rewrite !pageFunction_enumerations. Qed.

Lemma pageFunction_Normal (document : list Element.t) (focus : string)
    (elements : list Descriptor) :
  pageFunction document focus = Normal elements →
  ∃ buttons,
    button_enumeration document = Normal buttons
    ∧ elements
      = form_enumeration document ++ input_enumeration document ++ buttons.
Proof.
  rewrite pageFunction_enumerations.
  destruct (button_enumeration document) as [buttons|message]; simpl;
    [|done].
  intros H. injection H as <-. eauto.
Qed.

Lemma ToBoolean_nonempty (s : string) :
  s ≠ EmptyString → ToBoolean (JsString s) = true.
Proof. by destruct s. Qed.

Lemma head_push_if {A : Type} (c : bool) (x y : A) (l : list A) :
  head l = Some x → head (push_if c y l) = Some x.
Proof. destruct c, l; simpl; intros; by simplify_eq. Qed.

Lemma input_selectorHints_head (input : Element.t) (id : string) :
  Element.id input = JsString id → id ≠ EmptyString →
  head (input_selectorHints input) = Some ("#" +:+ id).
Proof.
  intros Hid Hne. unfold input_selectorHints.
  do 3 apply head_push_if.
  by rewrite Hid, ToBoolean_nonempty.
Qed.

(** What [button_selectorHints] computes, by the kind of the class name:
    a class name that is a string gives its tokens, a falsy one nothing,
    and any other makes the call throw. *)
Lemma button_selectorHints_string (button : Element.t) (className : string) :
  Element.className button = JsString className →
  button_selectorHints button
  = Normal
      (push_if (ToBoolean (Element.type button))
         ("[type=" +:+ dquote +:+ ToString (Element.type button)
            +:+ dquote +:+ "]")
         (push_if (0 <? List.length (class_tokens className))%nat
            ("." +:+ join "." (class_tokens className))
            (push_if (ToBoolean (Element.id button))
               ("#" +:+ ToString (Element.id button)) []))).
Proof.
  intros Hclass. unfold button_selectorHints. rewrite Hclass.
  destruct className as [|c className]; reflexivity.
Qed.

Lemma button_selectorHints_falsy (button : Element.t) :
  ToBoolean (Element.className button) = false →
  button_selectorHints button
  = Normal
      (push_if (ToBoolean (Element.type button))
         ("[type=" +:+ dquote +:+ ToString (Element.type button)
            +:+ dquote +:+ "]")
         (push_if (ToBoolean (Element.id button))
            ("#" +:+ ToString (Element.id button)) [])).
Proof. intros Hclass. unfold button_selectorHints. by rewrite Hclass. Qed.

Lemma button_selectorHints_throws (button : Element.t) :
  ToBoolean (Element.className button) = true →
  (∀ className, Element.className button ≠ JsString className) →
  button_selectorHints button
  = TypeError "button.className.split is not a function".
Proof.
  intros Htruthy Hnot. unfold button_selectorHints. rewrite Htruthy.
  destruct (Element.className button) as [| |b|s|]; try done.
  by destruct (Hnot s).
Qed.

(** The three cases are all there are. *)
Lemma className_cases (v : JsValue) :
  (∃ className, v = JsString className)
  ∨ ToBoolean v = false
  ∨ (ToBoolean v = true ∧ ∀ className, v ≠ JsString className).
Proof.
  destruct v as [| |[]|s|]; eauto; right; right; by split.
Qed.

Lemma button_selectorHints_head (button : Element.t) (id : string)
    (hints : list string) :
  Element.id button = JsString id → id ≠ EmptyString →
  button_selectorHints button = Normal hints →
  head hints = Some ("#" +:+ id).
Proof.
  intros Hid Hne Hhints.
  assert (head (push_if (ToBoolean (Element.id button))
                  ("#" +:+ ToString (Element.id button)) [])
          = Some ("#" +:+ id)) as Hfirst
    by (by rewrite Hid, ToBoolean_nonempty).
  destruct (className_cases (Element.className button))
    as [[className Hclass]|[Hfalsy|[Htruthy Hnot]]].
  - rewrite (button_selectorHints_string _ _ Hclass) in Hhints.
    injection Hhints as <-. by do 2 apply head_push_if.
  - rewrite (button_selectorHints_falsy _ Hfalsy) in Hhints.
    injection Hhints as <-. by apply head_push_if.
  - by rewrite (button_selectorHints_throws _ Htruthy Hnot) in Hhints.
Qed.

Lemma push_if_nil {A : Type} (c : bool) (x : A) (l : list A) :
  push_if c x l = [] ↔ c = false ∧ l = [].
Proof.
  destruct c; simpl; unfold push.
  - split; [|intros [? _]; done].
    intros H. by apply app_eq_nil in H as [_ ?].
  - tauto.
Qed.

Lemma input_selectorHints_nil (input : Element.t) :
  input_selectorHints input = [] ↔ input_has_hint input = false.
Proof.
  unfold input_selectorHints, input_has_hint.
  rewrite !push_if_nil, !orb_false_iff. tauto.
Qed.

Lemma button_selectorHints_nil (button : Element.t) (hints : list string) :
  button_selectorHints button = Normal hints →
  (hints = [] ↔ button_has_hint button = false).
Proof.
  intros Hhints. unfold button_has_hint.
  destruct (className_cases (Element.className button))
    as [[className Hclass]|[Hfalsy|[Htruthy Hnot]]].
  - rewrite (button_selectorHints_string _ _ Hclass) in Hhints.
    injection Hhints as <-. rewrite Hclass.
    rewrite !push_if_nil, !orb_false_iff. tauto.
  - rewrite (button_selectorHints_falsy _ Hfalsy) in Hhints.
    injection Hhints as <-.
    rewrite !push_if_nil, !orb_false_iff.
    destruct (Element.className button) as [| |b|[|c s]|];
      simpl in Hfalsy |- *; try done; tauto.
  - by rewrite (button_selectorHints_throws _ Htruthy Hnot) in Hhints.
Qed.

(** A descriptor of a clickable control, when it is built, carries the
    hints of the control and copies its identity. *)
Lemma button_descriptor_Normal (button : Element.t) (d : Descriptor) :
  button_descriptor button = Normal d →
  ∃ hints textContent,
    button_selectorHints button = Normal hints
    ∧ textContent_trim (Element.textContent button) = Normal textContent
    ∧ d = OfButton {|
            ButtonDescriptor.tag := toLowerCase (Element.tagName button);
            ButtonDescriptor.type := Element.type button;
            ButtonDescriptor.id := Element.id button;
            ButtonDescriptor.className := Element.className button;
            ButtonDescriptor.textContent := textContent;
            ButtonDescriptor.value := Element.value button;
            ButtonDescriptor.selectors := hints;
            ButtonDescriptor.visible :=
              is_not_null (Element.offsetParent button)
          |}.
Proof.
  unfold button_descriptor.
  destruct (button_selectorHints button) as [hints|message]; simpl; [|done].
  destruct (textContent_trim _) as [textContent|message]; simpl; [|done].
  intros H. injection H as <-. eauto.
Qed.

(** Each entry of the result is the descriptor of an element of the
    document. *)
Lemma pageFunction_elem_of (document : list Element.t) (focus : string)
    (elements : list Descriptor) (d : Descriptor) :
  pageFunction document focus = Normal elements →
  d ∈ elements →
  (∃ form index, d = form_descriptor form index)
  ∨ (∃ input, input ∈ document ∧ d = input_descriptor input)
  ∨ (∃ button, button ∈ document ∧ button_descriptor button = Normal d).
Proof.
  intros Hpage Hin.
  apply pageFunction_Normal in Hpage as (buttons & Hbuttons & ->).
  rewrite !elem_of_app in Hin.
  unfold form_enumeration, input_enumeration, button_enumeration in *.
  destruct Hin as [H|[H|H]].
  - left. apply elem_of_lookup_imap in H as (index & form & -> & _). eauto.
  - right; left. apply list_elem_of_fmap in H as (input & -> & H).
    apply list_elem_of_filter in H as [_ H]. eauto.
  - right; right. apply mapM_Normal_Forall2 in Hbuttons.
    apply list_elem_of_lookup in H as [i Hi].
    destruct (Forall2_lookup_r _ _ _ _ _ Hbuttons Hi) as (button & Hb & Hd).
    exists button. split; [|done].
    apply list_elem_of_lookup_2 in Hb.
    by apply list_elem_of_filter in Hb as [_ Hb].
Qed.

(** ** The extraction tool *)

Lemma extractPageElements_execute_returned {World : Type}
    (env : Environment World) (selectionArea : option string)
    (s : Session World) (w' : World) (document : list Element.t)
    (elements : list Descriptor) :
  env_document env (world s) = (w', Returned document) →
  pageFunction document (or_else selectionArea "form") = Normal elements →
  extractPageElements_execute env selectionArea s
  = (Build_Session w'
       (trace s
        ++ [SpinnerStart "🔍 Analyzing...";
            EvaluateFunction (or_else selectionArea "form");
            SpinnerSucceed
              ("🔍 Found: " +:+ pretty (List.length elements)
                 +:+ " elements")]),
     Returned (Elements elements)).
Proof.
  intros Hdoc Hpage.
  unfold extractPageElements_execute, page_evaluate_function.
  run_session. rewrite Hdoc. simpl. rewrite Hpage. simpl.
  by rewrite <- !app_assoc.
Qed.

(** When the page function throws, the call rejects with the error that
    the page gives for it, and the spinner is left running. *)
Lemma extractPageElements_execute_page_throws {World : Type}
    (env : Environment World) (selectionArea : option string)
    (s : Session World) (w' : World) (document : list Element.t)
    (message : string) :
  env_document env (world s) = (w', Returned document) →
  pageFunction document (or_else selectionArea "form") = TypeError message →
  extractPageElements_execute env selectionArea s
  = (Build_Session w'
       (trace s
        ++ [SpinnerStart "🔍 Analyzing...";
            EvaluateFunction (or_else selectionArea "form")]),
     Threw (env_page_error env message)).
Proof.
  intros Hdoc Hpage.
  unfold extractPageElements_execute, page_evaluate_function.
  run_session. rewrite Hdoc. simpl. rewrite Hpage. simpl.
  by rewrite <- !app_assoc.
Qed.

(** The page function completes on a document in which every clickable
    control has a class name that is a string or falsy and a text content
    that is a string or nullish: on every HTML page. *)
Lemma button_descriptor_completes (button : Element.t) :
  ((∃ className, Element.className button = JsString className)
   ∨ ToBoolean (Element.className button) = false) →
  ((∃ text, Element.textContent button = JsString text)
   ∨ Element.textContent button = JsUndefined
   ∨ Element.textContent button = JsNull) →
  ∃ d, button_descriptor button = Normal d.
Proof.
  intros Hclass Htext. unfold button_descriptor.
  assert (∃ hints, button_selectorHints button = Normal hints)
    as [hints ->].
  { destruct Hclass as [[className Hclass]|Hfalsy].
    - rewrite (button_selectorHints_string _ _ Hclass). eauto.
    - rewrite (button_selectorHints_falsy _ Hfalsy). eauto. }
  simpl. destruct Htext as [[text ->]|[-> | ->]]; simpl; eauto.
Qed.

(** C1. For every call of the extraction tool that returns, the returned
    sequence is the form descriptors followed by one descriptor for each
    element found by the input query and then by the clickable-control
    query, in that order. Each of these descriptors has a [selectors] list
    and carries the id of its element, and when that id is a non-empty
    string the id-based selector [#id] is the first entry of the list. So
    every returned descriptor that has a [selectors] list and a non-empty
    id has [#id] as its first candidate. *)
Theorem extract_id_selector_first {World : Type} (env : Environment World)
    (selectionArea : option string) (s : Session World) (w' : World)
    (document : list Element.t) (elements : list Descriptor) :
  env_document env (world s) = (w', Returned document) →
  pageFunction document (or_else selectionArea "form") = Normal elements →
  ∃ s' controls,
    extractPageElements_execute env selectionArea s
    = (s', Returned (Elements elements))
    ∧ elements = form_enumeration document ++ controls
    ∧ Forall (λ d, selectors_of d = None) (form_enumeration document)
    ∧ Forall2
        (λ e d,
           ∃ selectors,
             selectors_of d = Some selectors
             ∧ id_of d = Element.id e
             ∧ ∀ id, Element.id e = JsString id → id ≠ EmptyString →
                     head selectors = Some ("#" +:+ id))
        (filter (λ e, matches query_inputs e) document
         ++ filter (λ e, matches query_buttons e) document)
        controls
    ∧ ∀ d selectors id,
        d ∈ elements →
        selectors_of d = Some selectors →
        id_of d = JsString id →
        id ≠ EmptyString →
        head selectors = Some ("#" +:+ id).
Proof.
  intros Hdoc Hpage.
  rewrite (extractPageElements_execute_returned env _ s w' document elements
             Hdoc Hpage).
  destruct (pageFunction_Normal _ _ _ Hpage) as (buttons & Hbuttons & Helements).
  exists (Build_Session w'
            (trace s
             ++ [SpinnerStart "🔍 Analyzing...";
                 EvaluateFunction (or_else selectionArea "form");
                 SpinnerSucceed
                   ("🔍 Found: " +:+ pretty (List.length elements)
                      +:+ " elements")])),
    (input_enumeration document ++ buttons).
  split; [reflexivity|]. split; [exact Helements|]. split; [|split].
  - unfold form_enumeration. apply Forall_forall. intros d Hd.
    by apply elem_of_lookup_imap in Hd as (index & form & -> & _).
  - apply Forall2_app.
    + unfold input_enumeration. apply Forall2_fmap_r, Forall_Forall2_diag.
      apply Forall_forall. intros e _. simpl.
      exists (input_selectorHints e). split; [done|]. split; [done|].
      intros id Hid Hne. by apply input_selectorHints_head.
    + apply mapM_Normal_Forall2 in Hbuttons.
      eapply Forall2_impl; [exact Hbuttons|].
      intros e d Hd. simpl in Hd.
      apply button_descriptor_Normal in Hd as (hints & text & Hhints & _ & ->).
      simpl. exists hints. split; [done|]. split; [done|].
      intros id Hid Hne. by apply (button_selectorHints_head e).
  - intros d selectors id Hin Hsel Hid Hne.
    apply (pageFunction_elem_of _ _ _ _ Hpage) in Hin
      as [(form & index & ->)|[(input & _ & ->)|(button & _ & Hd)]].
    + discriminate.
    + simpl in Hsel, Hid. injection Hsel as <-.
      by apply input_selectorHints_head.
    + apply button_descriptor_Normal in Hd as (hints & text & Hhints & _ & ->).
      simpl in Hsel, Hid. injection Hsel as <-.
      by apply (button_selectorHints_head button).
Qed.

(** C1 on the login page of the scripted environment. *)
Lemma extract_id_selector_first_witness :
  ∃ s' controls,
    extractPageElements_execute scripted None (script login_page [] true [] [])
    = (s', Returned (Elements login_descriptors))
    ∧ login_descriptors = form_enumeration login_page ++ controls
    ∧ Forall (λ d, selectors_of d = None) (form_enumeration login_page)
    ∧ Forall2
        (λ e d,
           ∃ selectors,
             selectors_of d = Some selectors
             ∧ id_of d = Element.id e
             ∧ ∀ id, Element.id e = JsString id → id ≠ EmptyString →
                     head selectors = Some ("#" +:+ id))
        (filter (λ e, matches query_inputs e) login_page
         ++ filter (λ e, matches query_buttons e) login_page)
        controls
    ∧ ∀ d selectors id,
        d ∈ login_descriptors →
        selectors_of d = Some selectors →
        id_of d = JsString id →
        id ≠ EmptyString →
        head selectors = Some ("#" +:+ id).
Proof.
  exact (extract_id_selector_first scripted None
           (script login_page [] true [] []) _ login_page login_descriptors
           eq_refl eq_refl).
Defined.

(** C5, as stated, fails: on a page whose only element is an [input] of
    the SVG namespace, which has an empty id and no name, type or
    placeholder, the tool returns one descriptor and its list of selector
    candidates is empty. *)
Lemma extract_empty_candidates :
  snd (extractPageElements_execute scripted None
         (script [foreign_input] [] true [] []))
  = Returned (Elements
      [OfInput {|
         InputDescriptor.tag := "input";
         InputDescriptor.type := JsUndefined;
         InputDescriptor.id := JsString EmptyString;
         InputDescriptor.name := JsUndefined;
         InputDescriptor.className := JsObject;
         InputDescriptor.placeholder := JsUndefined;
         InputDescriptor.selectors := [];
         InputDescriptor.value := JsUndefined;
         InputDescriptor.required := JsUndefined;
         InputDescriptor.visible := true
       |}])
  ∧ ¬ (∀ d elements,
         snd (extractPageElements_execute scripted None
                (script [foreign_input] [] true [] []))
         = Returned (Elements elements) →
         d ∈ elements → candidates d ≠ []).
Proof.
  split; [reflexivity|].
  intros H.
  eapply (H (input_descriptor foreign_input)); [reflexivity| |reflexivity].
  apply list_elem_of_singleton. reflexivity.
Qed.

(** C5, amended. For every call of the extraction tool that returns, the
    returned sequence is the form descriptors, then one descriptor for each
    element found by the input query, then one for each element found by
    the clickable-control query. The candidates of a form descriptor are
    never empty; those of an input descriptor are non-empty exactly when
    one of the element's id, name, type and placeholder is truthy; those
    of a clickable control exactly when the element's id is truthy, or its
    class name is a string with a non-empty token, or its type is
    truthy. *)
Theorem extract_candidates_nonempty_iff {World : Type}
    (env : Environment World) (selectionArea : option string)
    (s : Session World) (w' : World) (document : list Element.t)
    (elements : list Descriptor) :
  env_document env (world s) = (w', Returned document) →
  pageFunction document (or_else selectionArea "form") = Normal elements →
  ∃ s' inputs buttons,
    extractPageElements_execute env selectionArea s
    = (s', Returned (Elements elements))
    ∧ elements = form_enumeration document ++ inputs ++ buttons
    ∧ Forall (λ d, candidates d ≠ []) (form_enumeration document)
    ∧ Forall2 (λ e d, candidates d ≠ [] ↔ input_has_hint e = true)
        (filter (λ e, matches query_inputs e) document) inputs
    ∧ Forall2 (λ e d, candidates d ≠ [] ↔ button_has_hint e = true)
        (filter (λ e, matches query_buttons e) document) buttons.
Proof.
  intros Hdoc Hpage.
  rewrite (extractPageElements_execute_returned env _ s w' document elements
             Hdoc Hpage).
  destruct (pageFunction_Normal _ _ _ Hpage) as (buttons & Hbuttons & Helements).
  eexists _, (input_enumeration document), buttons.
  split; [reflexivity|]. split; [exact Helements|]. split; [|split].
  - unfold form_enumeration. apply Forall_forall. intros d Hd.
    by apply elem_of_lookup_imap in Hd as (index & form & -> & _).
  - unfold input_enumeration. apply Forall2_fmap_r, Forall_Forall2_diag.
    apply Forall_forall. intros e _. simpl.
    pose proof (input_selectorHints_nil e) as Hnil.
    destruct (input_has_hint e), (input_selectorHints e);
      intuition congruence.
  - apply mapM_Normal_Forall2 in Hbuttons.
    eapply Forall2_impl; [exact Hbuttons|].
    intros e d Hd. simpl in Hd.
    apply button_descriptor_Normal in Hd as (hints & text & Hhints & _ & ->).
    simpl. pose proof (button_selectorHints_nil e hints Hhints) as Hnil.
    destruct (button_has_hint e), hints; intuition congruence.
Qed.

(** C5, amended, on a page with the login form and an [input] that offers
    no hint. *)
Lemma extract_candidates_nonempty_iff_witness :
  ∃ s' inputs buttons,
    extractPageElements_execute scripted (Some "inputs")
      (script (foreign_input :: login_page) [] true [] [])
    = (s', Returned (Elements mixed_descriptors))
    ∧ mixed_descriptors
      = form_enumeration (foreign_input :: login_page) ++ inputs ++ buttons
    ∧ Forall (λ d, candidates d ≠ [])
        (form_enumeration (foreign_input :: login_page))
    ∧ Forall2 (λ e d, candidates d ≠ [] ↔ input_has_hint e = true)
        (filter (λ e, matches query_inputs e) (foreign_input :: login_page))
        inputs
    ∧ Forall2 (λ e d, candidates d ≠ [] ↔ button_has_hint e = true)
        (filter (λ e, matches query_buttons e) (foreign_input :: login_page))
        buttons.
Proof.
  exact (extract_candidates_nonempty_iff scripted (Some "inputs")
           (script (foreign_input :: login_page) [] true [] []) _
           (foreign_input :: login_page) mixed_descriptors eq_refl eq_refl).
Defined.

(** C6. For every call of the extraction tool that returns, the returned
    sequence is the form enumeration, then the input/textarea/select
    enumeration, then the clickable-control enumeration, each listing the
    matching elements of the document in document order. Nothing is
    removed across categories: the length is the sum of the three counts,
    and an element that is both an input and a clickable control is in
    both enumerations. *)
Theorem extract_concatenation {World : Type} (env : Environment World)
    (selectionArea : option string) (s : Session World) (w' : World)
    (document : list Element.t) (buttons : list Descriptor) :
  env_document env (world s) = (w', Returned document) →
  mapM button_descriptor (filter (λ e, matches query_buttons e) document)
  = Normal buttons →
  ∃ s' elements,
    extractPageElements_execute env selectionArea s
    = (s', Returned (Elements elements))
    ∧ elements
      = imap (λ index form, form_descriptor form index)
          (filter (λ e, matches query_forms e) document)
        ++ (input_descriptor <$> filter (λ e, matches query_inputs e) document)
        ++ buttons
    ∧ Forall2 (λ e d, button_descriptor e = Normal d)
        (filter (λ e, matches query_buttons e) document) buttons
    ∧ List.length elements
      = (List.length (filter (λ e, matches query_forms e) document)
         + List.length (filter (λ e, matches query_inputs e) document)
         + List.length (filter (λ e, matches query_buttons e) document))%nat
    ∧ ∀ e, e ∈ document →
           matches query_inputs e = true →
           matches query_buttons e = true →
           input_descriptor e ∈ input_enumeration document
           ∧ ∃ d, button_descriptor e = Normal d ∧ d ∈ buttons.
Proof.
  intros Hdoc Hbuttons.
  assert (pageFunction document (or_else selectionArea "form")
          = Normal (form_enumeration document ++ input_enumeration document
                      ++ buttons)) as Hpage.
  { rewrite pageFunction_enumerations. unfold button_enumeration.
    by rewrite Hbuttons. }
  rewrite (extractPageElements_execute_returned env _ s w' document _
             Hdoc Hpage).
  pose proof (mapM_Normal_Forall2 _ _ _ Hbuttons) as Hall.
  eexists _, _. split; [reflexivity|].
  split; [reflexivity|]. split; [exact Hall|]. split.
  - unfold form_enumeration, input_enumeration.
    rewrite !length_app, length_imap, !length_fmap.
    rewrite (Forall2_length _ _ _ Hall). lia.
  - intros e Hin Hi Hb. split.
    + unfold input_enumeration.
      apply list_elem_of_fmap_2, list_elem_of_filter.
      split; [by apply Is_true_true|done].
    + assert (e ∈ filter (λ e, matches query_buttons e) document) as He.
      { apply list_elem_of_filter. split; [by apply Is_true_true|done]. }
      apply list_elem_of_lookup in He as [i Hi'].
      destruct (Forall2_lookup_l _ _ _ _ _ Hall Hi') as (d & Hd & Hed).
      exists d. split; [done|]. by apply list_elem_of_lookup_2 in Hd.
Qed.

(** C6 on the login page, whose submit control is in two categories. *)
Lemma extract_concatenation_witness :
  ∃ s' elements,
    extractPageElements_execute scripted None (script login_page [] true [] [])
    = (s', Returned (Elements elements))
    ∧ elements
      = imap (λ index form, form_descriptor form index)
          (filter (λ e, matches query_forms e) login_page)
        ++ (input_descriptor
              <$> filter (λ e, matches query_inputs e) login_page)
        ++ drop 3 login_descriptors
    ∧ Forall2 (λ e d, button_descriptor e = Normal d)
        (filter (λ e, matches query_buttons e) login_page)
        (drop 3 login_descriptors)
    ∧ List.length elements
      = (List.length (filter (λ e, matches query_forms e) login_page)
         + List.length (filter (λ e, matches query_inputs e) login_page)
         + List.length (filter (λ e, matches query_buttons e) login_page))%nat
    ∧ ∀ e, e ∈ login_page →
           matches query_inputs e = true →
           matches query_buttons e = true →
           input_descriptor e ∈ input_enumeration login_page
           ∧ ∃ d, button_descriptor e = Normal d
                  ∧ d ∈ drop 3 login_descriptors.
Proof.
  exact (extract_concatenation scripted None
           (script login_page [] true [] []) _ login_page
           (drop 3 login_descriptors) eq_refl eq_refl).
Defined.

(** C10. Two calls of the extraction tool on the same session return the
    same result and leave the same world, whatever [selectionArea] each
    is given. *)
Theorem extract_ignores_selectionArea {World : Type}
    (env : Environment World) (area area' : option string)
    (s : Session World) :
  snd (extractPageElements_execute env area s)
  = snd (extractPageElements_execute env area' s)
  ∧ world (fst (extractPageElements_execute env area s))
    = world (fst (extractPageElements_execute env area' s)).
Proof.
  unfold extractPageElements_execute, page_evaluate_function.
  run_session.
  destruct (env_document env (world s)) as [w [document|error]]; simpl;
    [|done].
  rewrite (pageFunction_focus document (or_else area "form")
             (or_else area' "form")).
  by destruct (pageFunction document (or_else area' "form")).
Qed.

(** ** Click and type *)

(** C2. When the wait for the target selector times out (the environment's
    [waitForSelector] throws), a click call and a type call each return the
    failure string that names the selector and carries the error's message.
    Neither throws, and neither performs a click or a fill: the only call
    made on the page is the wait, the world is the one the wait left, and
    the interactions in the trace are those that were there before. *)
Theorem click_type_not_visible {World : Type} (env : Environment World)
    (selector text : string) (s : Session World) (w' : World)
    (error : Error) :
  env_waitForSelector env selector 10000 (world s) = (w', Threw error) →
  clickOnElement_execute env selector s
  = (Build_Session w'
       (trace s
        ++ [SpinnerStart ("👆 " +:+ selector +:+ "...");
            WaitForSelector selector 10000;
            SpinnerFail ("❌ Failed: " +:+ selector)]),
     Returned (Text ("Failed to click element " +:+ selector +:+ ": "
                       +:+ message error)))
  ∧ type_execute env selector text s
    = (Build_Session w'
         (trace s
          ++ [SpinnerStart ("⌨️  " +:+ selector +:+ "...");
              WaitForSelector selector 10000;
              SpinnerFail ("❌ Failed: " +:+ selector)]),
       Returned (Text ("Failed to type into element " +:+ selector +:+ ": "
                         +:+ message error)))
  ∧ List.filter is_interaction
      (trace (fst (clickOnElement_execute env selector s)))
    = List.filter is_interaction (trace s)
  ∧ List.filter is_interaction
      (trace (fst (type_execute env selector text s)))
    = List.filter is_interaction (trace s).
Proof.
  intros Hwait.
  assert (clickOnElement_execute env selector s
          = (Build_Session w'
               (trace s
                ++ [SpinnerStart ("👆 " +:+ selector +:+ "...");
                    WaitForSelector selector 10000;
                    SpinnerFail ("❌ Failed: " +:+ selector)]),
             Returned (Text ("Failed to click element " +:+ selector +:+ ": "
                               +:+ message error)))) as Hclick.
  { unfold clickOnElement_execute, page_waitForSelector. run_session.
    rewrite Hwait. simpl. by rewrite <- !app_assoc. }
  assert (type_execute env selector text s
          = (Build_Session w'
               (trace s
                ++ [SpinnerStart ("⌨️  " +:+ selector +:+ "...");
                    WaitForSelector selector 10000;
                    SpinnerFail ("❌ Failed: " +:+ selector)]),
             Returned (Text ("Failed to type into element " +:+ selector
                               +:+ ": " +:+ message error)))) as Htype.
  { unfold type_execute, page_waitForSelector. run_session.
    rewrite Hwait. simpl. by rewrite <- !app_assoc. }
  rewrite Hclick, Htype. simpl.
  rewrite !List.filter_app. simpl. by rewrite app_nil_r.
Qed.

(** C2 on a page where no selector becomes visible. *)
Lemma click_type_not_visible_witness :
  clickOnElement_execute scripted "#login" (script login_page [] true [] [])
  = (Build_Session (tick 10000 (world (script login_page [] true [] [])))
       [SpinnerStart "👆 #login..."; WaitForSelector "#login" 10000;
        SpinnerFail "❌ Failed: #login"],
     Returned (Text "Failed to click element #login: Timeout 10000ms exceeded."))
  ∧ type_execute scripted "#login" "test@example.com"
      (script login_page [] true [] [])
    = (Build_Session (tick 10000 (world (script login_page [] true [] [])))
         [SpinnerStart "⌨️  #login..."; WaitForSelector "#login" 10000;
          SpinnerFail "❌ Failed: #login"],
       Returned (Text "Failed to type into element #login: Timeout 10000ms exceeded."))
  ∧ List.filter is_interaction
      (trace (fst (clickOnElement_execute scripted "#login"
                     (script login_page [] true [] []))))
    = []
  ∧ List.filter is_interaction
      (trace (fst (type_execute scripted "#login" "test@example.com"
                     (script login_page [] true [] []))))
    = [].
Proof.
  exact (click_type_not_visible scripted "#login" "test@example.com"
           (script login_page [] true [] []) _ _ eq_refl).
Defined.

(** ** The screenshot tool *)

(** When the capture throws, nothing in the execution function catches the
    error: the call ends by throwing it, the spinner still running. *)
Lemma takeScreenshot_execute_throws {World : Type} (env : Environment World)
    (path : string) (s : Session World) (w' : World) (error : Error) :
  let target :=
    or_else (Some path)
      ("screenshot-" +:+ pretty (env_now env (world s)) +:+ ".png") in
  env_screenshot env target (world s) = (w', Threw error) →
  takeScreenshot_execute env path s
  = (Build_Session w'
       (trace s ++ [SpinnerStart "📸 Taking screenshot..."; Screenshot target]),
     Threw error).
Proof.
  intros target Hshot. subst target.
  unfold takeScreenshot_execute, page_screenshot, screenshot_path, Date_now,
    or_else in *.
  run_session. destruct path as [|c path]; simpl in *;
    run_session; rewrite Hshot; simpl; by rewrite <- !app_assoc.
Qed.

(** C4. A [take_screenshot] call whose capture fails does not end in a
    thrown fault: the call of the tool, with any path, returns a failure
    result in place of the image, the text in which the error of the
    capture is reported to the planner. The fault is thrown by the
    execution function and caught by the tool object around it. *)
Theorem takeScreenshot_capture_failure_reported {World : Type}
    (env : Environment World) (input : gmap string Json) (path : string)
    (s : Session World) (w' : World) (error : Error) :
  let target :=
    or_else (Some path)
      ("screenshot-" +:+ pretty (env_now env (world s)) +:+ ".png") in
  env_screenshot env target (world s) = (w', Threw error) →
  dispatch env (takeScreenshotTool env) (<["path" := JString path]> input) s
  = (Build_Session w'
       (trace s ++ [SpinnerStart "📸 Taking screenshot..."; Screenshot target]),
     Returned (Text (env_tool_error env error))).
Proof.
  intros target Hshot. unfold dispatch, invoke, try_catch. simpl.
  rewrite lookup_insert_eq. simpl.
  unfold arg_string. rewrite lookup_insert_eq.
  by rewrite (takeScreenshot_execute_throws env path s w' error Hshot).
Qed.

(** C4 on a page whose capture fails. *)
Lemma takeScreenshot_capture_failure_reported_witness :
  dispatch scripted (takeScreenshotTool scripted)
    (<["path" := JString "shot.png"]> ∅) (script login_page [] false [] [])
  = (Build_Session (world (script login_page [] false [] []))
       [SpinnerStart "📸 Taking screenshot..."; Screenshot "shot.png"],
     Returned
       (Text "An error occurred while running the tool. Please try again. Error: Unable to capture screenshot")).
Proof.
  exact (takeScreenshot_capture_failure_reported scripted ∅ "shot.png"
           (script login_page [] false [] []) _ _ eq_refl).
Defined.




(** ** The wait tool *)

(** C8, as stated, fails: a call with the duration -1 passes validation
    and reaches the execution function, which waits for -1 milliseconds. *)
Lemma wait_negative_duration_executed :
  zod_object (parameters (waitTool scripted)) {["duration" := JNumber (-1)]}
  = Some {["duration" := JNumber (-1)]}
  ∧ invoke (waitTool scripted) {["duration" := JNumber (-1)]}
      (script login_page [] true [] [])
    = (Build_Session (tick (-1) (world (script login_page [] true [] [])))
         [SpinnerStart "⏱️  -1ms..."; WaitForTimeout (-1);
          SpinnerSucceed "⏱️  Done"],
       Returned (Text "Waited for -1 milliseconds.")).
Proof. split; reflexivity. Qed.

(** C8, amended. The schema of the wait tool constrains the duration to be
    a number, of either sign: with any number as the duration the call
    passes validation and its execution function runs with that number,
    handing it to the page's timeout; arguments without a duration, or
    with one that is not a number, are rejected and the session is left as
    it was. *)
Theorem wait_duration_any_number {World : Type} (env : Environment World)
    (input : gmap string Json) (n : Z) (s : Session World) :
  invoke (waitTool env) (<["duration" := JNumber n]> input) s
  = wait_execute env n s
  ∧ WaitForTimeout n
    ∈ trace (fst (invoke (waitTool env) (<["duration" := JNumber n]> input) s))
  ∧ invoke (waitTool env) (delete "duration" input) s
    = (s, Threw {| message := "Invalid arguments for tool wait" |})
  ∧ ∀ v, (∀ m, v ≠ JNumber m) →
         invoke (waitTool env) (<["duration" := v]> input) s
         = (s, Threw {| message := "Invalid arguments for tool wait" |}).
Proof.
  assert (invoke (waitTool env) (<["duration" := JNumber n]> input) s
          = wait_execute env n s) as Hrun.
  { unfold invoke. simpl. rewrite lookup_insert_eq. simpl.
    unfold arg_number. by rewrite lookup_insert_eq. }
  split; [exact Hrun|]. split; [|split].
  - rewrite Hrun. unfold wait_execute, page_waitForTimeout. run_session.
    destruct (env_waitForTimeout env n (world s)) as [w [[]|error]]; simpl;
      rewrite ?elem_of_app, ?list_elem_of_singleton; tauto.
  - unfold invoke. simpl. by rewrite lookup_delete_eq.
  - intros v Hv. unfold invoke. simpl. rewrite lookup_insert_eq.
    destruct v; simpl; try reflexivity. by destruct (Hv n0).
Qed.

(** C8, amended, on the scripted environment: a duration of -250 is
    executed, a duration that is a string is rejected. *)
Lemma wait_duration_any_number_witness :
  invoke (waitTool scripted) (<["duration" := JNumber (-250)]> ∅)
    (script login_page [] true [] [])
  = wait_execute scripted (-250) (script login_page [] true [] [])
  ∧ invoke (waitTool scripted) (<["duration" := JString "soon"]> ∅)
      (script login_page [] true [] [])
    = (script login_page [] true [] [],
       Threw {| message := "Invalid arguments for tool wait" |}).
Proof.
  destruct (wait_duration_any_number scripted ∅ (-250)
              (script login_page [] true [] [])) as (Hrun & _ & _ & Hreject).
  split; [exact Hrun|]. apply Hreject. discriminate.
Defined.

(** ** The task *)

(** [main] is the intake, the run at the session and with the instruction
    of the intake, and the conclusion. *)
Lemma main_with_conclude {World : Type} (env : Environment World)
    (run : AgentConfig → string → nat → M World (option string))
    (s : Session World) :
  main_with env run s
  = conclude env (run (agent env) (snd (intake env s)) 30%nat
                    (fst (intake env s))).
Proof.
  unfold main_with, intake, conclude, askUser, browser_close.
  run_session.
  destruct (env_answer env "->  " (world s)) as [w line]. simpl.
  destruct (negb _ || _); simpl;
    rewrite <- !app_assoc; simpl;
    (destruct (run _ _ _ _) as [s1 [finalOutput|error]]; simpl;
     destruct (env_close env (world s1)) as [w1 [[]|error1]]; simpl;
     by rewrite <- !app_assoc).
Qed.

(** The budget of the planning loop: with no turn left the run throws. *)
Lemma run_turns_exhausted {World : Type} (env : Environment World)
    (catalog : list Tool) (transcript : list Entry) (s : Session World) :
  run_turns env catalog 0 transcript s
  = (s, Threw {| message := "Max turns exceeded" |}).
Proof. reflexivity. Qed.

(** C3. Whatever the runner does and however it ends, with a final output
    (COMPLETED) or by throwing (ABORTED: the budget exhausted, or any other
    fault), [main] goes on from the session the run ended in: it prints the
    result box for that outcome, then closes the browser. *)
Theorem teardown_after_every_outcome {World : Type} (env : Environment World)
    (run : AgentConfig → string → nat → M World (option string))
    (s : Session World) :
  let ended :=
    run (agent env) (snd (intake env s)) 30%nat (fst (intake env s)) in
  ∃ post,
    trace (fst (main_with env run s))
    = trace (fst ended)
      ++ [ConsoleBox (report (snd ended)); SpinnerStart "👋 Closing..."; Close]
      ++ post
    ∧ (post = [] ∨ post = [SpinnerSucceed "👋 Done!"]).
Proof.
  intros ended. rewrite main_with_conclude. fold ended.
  destruct ended as [s1 outcome]. unfold conclude. simpl.
  destruct (env_close env (world s1)) as [w [[]|error]]; simpl.
  - exists [SpinnerSucceed "👋 Done!"]. split; [done|by right].
  - exists []. split; [done|by left].
Qed.

(** The ways a task ends, on the scripted environment with the
    planning loop as the runner. A planner that keeps calling a tool uses
    up the thirty turns, and the task is aborted. *)
Example main_budget_exhausted :
  let s :=
    script login_page [] true ["log in"]
      (replicate 31 (CallTool "wait" {["duration" := JNumber 5]})) in
  List.length (List.filter
                 (λ ev, match ev with WaitForTimeout _ => true | _ => false end)
                 (trace (fst (main scripted s)))) = 30%nat
  ∧ drop 93 (trace (fst (main scripted s)))
    = [ConsoleBox (report (Threw {| message := "Max turns exceeded" |}));
       SpinnerStart "👋 Closing..."; Close; SpinnerSucceed "👋 Done!"].
Proof. split; vm_compute; reflexivity. Qed.

(** A final output completes the task. *)
Example main_completed :
  trace (fst (main scripted
                (script login_page [] true ["log in"]
                   [FinalOutput (Some "Logged in.")])))
  = [ConsoleBox "🤔 What do you want to automate today?"; Question "->  ";
     ConsoleLog "🚀 Task: log in";
     ConsoleBox (report (Returned (Some "Logged in.")));
     SpinnerStart "👋 Closing..."; Close; SpinnerSucceed "👋 Done!"].
Proof. vm_compute. reflexivity. Qed.

(** A fault of a tool is reported to the planner and the run goes on. *)
Example main_tool_fault :
  trace (fst (main scripted
                (script login_page [] false ["log in"]
                   [CallTool "take_screenshot" {["path" := JString "a.png"]};
                    FinalOutput (Some "No screenshot could be taken.")])))
  = [ConsoleBox "🤔 What do you want to automate today?"; Question "->  ";
     ConsoleLog "🚀 Task: log in";
     SpinnerStart "📸 Taking screenshot..."; Screenshot "a.png";
     ConsoleBox (report (Returned (Some "No screenshot could be taken.")));
     SpinnerStart "👋 Closing..."; Close; SpinnerSucceed "👋 Done!"].
Proof. vm_compute. reflexivity. Qed.

(** A call of a tool that the catalog does not have aborts the task. *)
Example main_unknown_tool :
  trace (fst (main scripted
                (script login_page [] true ["log in"]
                   [CallTool "reload" ∅])))
  = [ConsoleBox "🤔 What do you want to automate today?"; Question "->  ";
     ConsoleLog "🚀 Task: log in";
     ConsoleBox (report (Threw {| message := "Tool reload not found" |}));
     SpinnerStart "👋 Closing..."; Close; SpinnerSucceed "👋 Done!"].
Proof. vm_compute. reflexivity. Qed.

(** A line of ASCII white space only is trimmed to the empty string. *)
Lemma strip_space_is_space (c : ascii) (r : string) :
  Ascii.is_space c = true → strip_space (String c r) = Some r.
Proof. by destruct c as [[] [] [] [] [] [] [] []]. Qed.

Lemma trim_white (line : string) :
  Forall (λ c, Ascii.is_space c = true) (list_ascii_of_string line) →
  trim line = EmptyString.
Proof.
  intros Hwhite. unfold trim.
  assert (trimStart line = EmptyString) as ->; [|reflexivity].
  unfold trimStart.
  induction line as [|c line IH]; simpl; [reflexivity|].
  simpl in Hwhite. apply Forall_cons in Hwhite as [Hc Hline].
  change (match strip_space (String c line) with
          | Some r => strip_while strip_space (String.length line) r
          | None => String c line
          end = EmptyString).
  rewrite (strip_space_is_space c line Hc). by apply IH.
Qed.

(** C9. When the line the operator gives as the instruction is empty after
    trimming (empty, or white space only), [main] prints the line that
    announces the default task, then the task line, which shows the default
    instruction, and runs the runner with the default instruction. *)
Theorem main_default_instruction {World : Type} (env : Environment World)
    (run : AgentConfig → string → nat → M World (option string))
    (s : Session World) (w' : World) (line : string) :
  env_answer env "->  " (world s) = (w', line) →
  trim line = EmptyString →
  main_with env run s
  = conclude env
      (run (agent env) "Automate the login process on the website." 30%nat
         (Build_Session w'
            (trace s
             ++ [ConsoleBox "🤔 What do you want to automate today?";
                 Question "->  ";
                 ConsoleLog
                   "⚠️  Using default task: Automate the login process on the website.";
                 ConsoleLog
                   "🚀 Task: Automate the login process on the website."]))).
Proof.
  intros Hanswer Htrim. rewrite main_with_conclude. unfold intake.
  rewrite Hanswer, Htrim. simpl. by rewrite <- !app_assoc.
Qed.

(** C9 for an operator who types three spaces. *)
Lemma main_default_instruction_witness :
  main_with scripted (Runner_run scripted)
    (script login_page [] true ["   "] [FinalOutput None])
  = conclude scripted
      (Runner_run scripted (agent scripted)
         "Automate the login process on the website." 30%nat
         (Build_Session
            (world (script login_page [] true [] [FinalOutput None]))
            [ConsoleBox "🤔 What do you want to automate today?";
             Question "->  ";
             ConsoleLog
               "⚠️  Using default task: Automate the login process on the website.";
             ConsoleLog
               "🚀 Task: Automate the login process on the website."])).
Proof.
  exact (main_default_instruction scripted (Runner_run scripted)
           (script login_page [] true ["   "] [FinalOutput None]) _ "   "
           eq_refl eq_refl).
Defined.

(** * Further properties of the tools *)

(** ** Faults of the page calls *)

(** X1. The three tools that guard their page calls (navigate, click, type)
    never throw: whichever of their page calls fails, and whatever it
    throws, each returns a text result. *)
Theorem guarded_tools_never_throw {World : Type} (env : Environment World)
    (url selector text : string) (s : Session World) :
  (∃ t, snd (navigate_execute env url s) = Returned (Text t))
  ∧ (∃ t, snd (clickOnElement_execute env selector s) = Returned (Text t))
  ∧ (∃ t, snd (type_execute env selector text s) = Returned (Text t)).
Proof.
  split; [|split].
  - unfold navigate_execute, page_goto, page_waitForTimeout. run_session.
    destruct (env_goto env url 30000 (world s)) as [w1 [[]|e1]]; simpl;
      [|by eauto].
    destruct (env_waitForTimeout env 2000 w1) as [w2 [[]|e2]]; simpl;
      by eauto.
  - unfold clickOnElement_execute, page_waitForSelector, page_click,
      page_waitForTimeout. run_session.
    destruct (env_waitForSelector env selector 10000 (world s))
      as [w1 [[]|e1]]; simpl; [|by eauto].
    destruct (env_click env selector w1) as [w2 [[]|e2]]; simpl; [|by eauto].
    destruct (env_waitForTimeout env 1000 w2) as [w3 [[]|e3]]; simpl;
      by eauto.
  - unfold type_execute, page_waitForSelector, page_fill,
      page_waitForTimeout. run_session.
    destruct (env_waitForSelector env selector 10000 (world s))
      as [w1 [[]|e1]]; simpl; [|by eauto].
    destruct (env_fill env selector "" w1) as [w2 [[]|e2]]; simpl;
      [|by eauto].
    destruct (env_fill env selector text w2) as [w3 [[]|e3]]; simpl;
      [|by eauto].
    destruct (env_waitForTimeout env 500 w3) as [w4 [[]|e4]]; simpl;
      by eauto.
Qed.

(** X2. When the load fails ([page.goto] throws), navigate returns the
    failure string that names the URL and carries the error's message; the
    settle delay is skipped, and the only call on the page is the load. *)
Theorem navigate_load_failure {World : Type} (env : Environment World)
    (url : string) (s : Session World) (w' : World) (error : Error) :
  env_goto env url 30000 (world s) = (w', Threw error) →
  navigate_execute env url s
  = (Build_Session w'
       (trace s
        ++ [SpinnerStart ("🌐 " +:+ url +:+ "...");
            Goto url 30000;
            SpinnerFail ("❌ Failed: " +:+ url)]),
     Returned (Text ("Failed to navigate to " +:+ url +:+ ": "
                       +:+ message error))).
Proof.
  intros Hgoto. unfold navigate_execute, page_goto. run_session.
  rewrite Hgoto. simpl. by rewrite <- !app_assoc.
Qed.

(** X2 on the closed page. *)
Lemma navigate_load_failure_witness :
  navigate_execute closed_page "https://example.com/login"
    (script login_page [] true [] [])
  = (Build_Session (world (script login_page [] true [] []))
       [SpinnerStart "🌐 https://example.com/login...";
        Goto "https://example.com/login" 30000;
        SpinnerFail "❌ Failed: https://example.com/login"],
     Returned
       (Text "Failed to navigate to https://example.com/login: Target page, context or browser has been closed")).
Proof.
  exact (navigate_load_failure closed_page "https://example.com/login"
           (script login_page [] true [] []) _ _ eq_refl).
Defined.

(** X3. A failure string of the type tool does not mean that the field is
    untouched: when the target is visible and the clearing fill succeeds
    but the fill with the text throws, the tool returns its failure string
    after the field has been cleared. *)
Theorem type_failure_after_clearing {World : Type} (env : Environment World)
    (selector text : string) (s : Session World) (w1 w2 w3 : World)
    (error : Error) :
  env_waitForSelector env selector 10000 (world s) = (w1, Returned tt) →
  env_fill env selector "" w1 = (w2, Returned tt) →
  env_fill env selector text w2 = (w3, Threw error) →
  type_execute env selector text s
  = (Build_Session w3
       (trace s
        ++ [SpinnerStart ("⌨️  " +:+ selector +:+ "...");
            WaitForSelector selector 10000;
            Fill selector "";
            Fill selector text;
            SpinnerFail ("❌ Failed: " +:+ selector)]),
     Returned (Text ("Failed to type into element " +:+ selector +:+ ": "
                       +:+ message error))).
Proof.
  intros Hwait Hclear Hfill.
  unfold type_execute, page_waitForSelector, page_fill. run_session.
  rewrite Hwait. simpl. rewrite Hclear. simpl. rewrite Hfill. simpl.
  by rewrite <- !app_assoc.
Qed.

(** X3 on a numeric field. *)
Lemma type_failure_after_clearing_witness :
  type_execute numeric_fields "#age" "twelve"
    (script login_page ["#age"] true [] [])
  = (Build_Session (world (script login_page ["#age"] true [] []))
       [SpinnerStart "⌨️  #age..."; WaitForSelector "#age" 10000;
        Fill "#age" ""; Fill "#age" "twelve"; SpinnerFail "❌ Failed: #age"],
     Returned
       (Text "Failed to type into element #age: Cannot type text into input[type=number]")).
Proof.
  exact (type_failure_after_clearing numeric_fields "#age" "twelve"
           (script login_page ["#age"] true [] []) _ _ _ _
           eq_refl eq_refl eq_refl).
Defined.



(** X8. The extraction tool only observes. Its one call on the page is
    the evaluation of the page function, after the spinner has started;
    the success spinner, with the number of elements found, follows only
    when the evaluation returns, and nothing follows when the page or the
    page function throws. No click, fill, navigation or script evaluation
    is ever added to the trace. *)
Theorem extract_only_observes {World : Type} (env : Environment World)
    (selectionArea : option string) (s : Session World) :
  let called :=
    trace s
    ++ [SpinnerStart "🔍 Analyzing...";
        EvaluateFunction (or_else selectionArea "form")] in
  let after := trace (fst (extractPageElements_execute env selectionArea s)) in
  match snd (env_document env (world s)) with
  | Returned document =>
      match pageFunction document (or_else selectionArea "form") with
      | Normal elements =>
          after
          = called
            ++ [SpinnerSucceed
                  ("🔍 Found: " +:+ pretty (List.length elements)
                     +:+ " elements")]
      | TypeError _ => after = called
      end
  | Threw _ => after = called
  end.
Proof.
  unfold extractPageElements_execute, page_evaluate_function. run_session.
  destruct (env_document env (world s)) as [w [document|error]]; simpl.
  - destruct (pageFunction document (or_else selectionArea "form"))
      as [elements|message]; simpl; by rewrite <- !app_assoc.
  - by rewrite <- !app_assoc.
Qed.

(** X9. A hint that is [null], the empty string or ["form"] makes no
    difference at all: the three calls are the same computation, down to
    the argument handed to the page function. Any other hint is handed to
    the page function as it is. *)
Theorem extract_hint_defaults {World : Type} (env : Environment World)
    (s : Session World) :
  extractPageElements_execute env None s
  = extractPageElements_execute env (Some "form") s
  ∧ extractPageElements_execute env (Some EmptyString) s
    = extractPageElements_execute env (Some "form") s
  ∧ ∀ area, area ≠ EmptyString →
      ∃ post,
        trace (fst (extractPageElements_execute env (Some area) s))
        = trace s ++ [SpinnerStart "🔍 Analyzing..."; EvaluateFunction area]
          ++ post.
Proof.
  split; [reflexivity|]. split; [reflexivity|].
  intros area Harea.
  pose proof (extract_only_observes env (Some area) s) as Htrace.
  cbv zeta in Htrace.
  assert (or_else (Some area) "form" = area) as Hfocus by (by destruct area).
  rewrite Hfocus in Htrace.
  destruct (snd (env_document env (world s))) as [document|error].
  - destruct (pageFunction document area) as [elements|message].
    + eexists [_]. by rewrite Htrace, <- !app_assoc.
    + exists []. by rewrite Htrace.
  - exists []. by rewrite Htrace.
Qed.

(** X9 on the scripted environment, for the hint ["buttons"]. *)
Lemma extract_hint_defaults_witness :
  ∃ post,
    trace (fst (extractPageElements_execute scripted (Some "buttons")
                  (script login_page [] true [] [])))
    = [SpinnerStart "🔍 Analyzing..."; EvaluateFunction "buttons"] ++ post.
Proof.
  destruct (extract_hint_defaults scripted (script login_page [] true [] []))
    as (_ & _ & Harea).
  exact (Harea "buttons" ltac:(discriminate)).
Defined.

(** ** Selector candidates *)

Lemma elem_of_push_if {A : Type} (c : bool) (x y : A) (l : list A) :
  x ∈ push_if c y l ↔ x ∈ l ∨ (c = true ∧ x = y).
Proof.
  destruct c; simpl; unfold push.
  - rewrite elem_of_app, list_elem_of_singleton. tauto.
  - intuition congruence.
Qed.









(** The text of the three queries of the page function. *)
Lemma query_texts :
  query_text query_forms = "form"
  ∧ query_text query_inputs = "input, textarea, select"
  ∧ query_text query_buttons
    = "button, input[type=" +:+ dquote +:+ "submit" +:+ dquote
        +:+ "], input[type=" +:+ dquote +:+ "button" +:+ dquote +:+ "]".
Proof. repeat split; reflexivity. Qed.

(** X14. The type candidate of an input descriptor is always written with
    the tag [input] and the value of the type property. It is listed even
    when the selector it denotes does not select the element it was made
    for: an element whose tag is not [input] (a textarea, a select), or an
    element that has no type attribute. *)
Theorem type_candidate_may_miss (e : Element.t) (t : string) :
  Element.type e = JsString t →
  t ≠ EmptyString →
  Element.localName e ≠ "input" ∨ Element.typeAttribute e = None →
  selector_text (TypeAttrSelector "input" t) ∈ input_selectorHints e
  ∧ matches1 (TypeAttrSelector "input" t) e = false.
Proof.
  intros Htype Hne Hmiss. split.
  - unfold input_selectorHints. rewrite !elem_of_push_if.
    left. right. rewrite Htype. split; [by apply ToBoolean_nonempty|done].
  - simpl. destruct Hmiss as [Htag|Hattr].
    + by rewrite (bool_decide_eq_false_2 _ Htag).
    + rewrite Hattr. apply andb_false_r.
Qed.

(** X14 for a textarea. *)
Lemma type_candidate_may_miss_witness :
  selector_text (TypeAttrSelector "input" "textarea")
    ∈ input_selectorHints
        (element "textarea" None "TEXTAREA" (JsString "bio") (JsString "bio")
           (JsString "textarea") (JsString EmptyString) (JsString EmptyString))
  ∧ matches1 (TypeAttrSelector "input" "textarea")
      (element "textarea" None "TEXTAREA" (JsString "bio") (JsString "bio")
         (JsString "textarea") (JsString EmptyString) (JsString EmptyString))
    = false.
Proof.
  apply (type_candidate_may_miss
           (element "textarea" None "TEXTAREA" (JsString "bio")
              (JsString "bio") (JsString "textarea") (JsString EmptyString)
              (JsString EmptyString)) "textarea");
    [reflexivity|discriminate|left; discriminate].
Defined.

(** ** Strings *)

Lemma string_app_cons (c : ascii) (s t : string) :
  String c s +:+ t = String c (s +:+ t).
Proof. reflexivity. Qed.

Lemma string_app_nil_r (s : string) : s +:+ EmptyString = s.
Proof.
  induction s as [|c s IH]; [done|]. by rewrite string_app_cons, IH.
Qed.

Lemma string_app_assoc (s1 s2 s3 : string) :
  (s1 +:+ s2) +:+ s3 = s1 +:+ (s2 +:+ s3).
Proof.
  induction s1 as [|c s1 IH]; [done|]. by rewrite !string_app_cons, IH.
Qed.

Lemma string_length_app (s1 s2 : string) :
  String.length (s1 +:+ s2) = (String.length s1 + String.length s2)%nat.
Proof.
  induction s1 as [|c s1 IH]; [done|].
  rewrite string_app_cons. simpl. by rewrite IH.
Qed.

Lemma string_app_inv_tail (s1 s2 t : string) :
  s1 +:+ t = s2 +:+ t → s1 = s2.
Proof.
  revert s2. induction s1 as [|c s1 IH]; intros [|d s2] H.
  - done.
  - apply (f_equal String.length) in H.
    rewrite !string_length_app in H. simpl in H. lia.
  - apply (f_equal String.length) in H.
    rewrite !string_length_app in H. simpl in H. lia.
  - rewrite !string_app_cons in H. injection H as -> H. f_equal.
    by apply IH.
Qed.

Lemma rev_app_app (s1 s2 s3 : string) :
  String.rev_app (String.rev_app s1 s2) s3 = String.rev_app s2 (s1 +:+ s3).
Proof.
  revert s2. induction s1 as [|c s1 IH]; intros s2; simpl; [done|].
  by rewrite IH.
Qed.

Lemma string_rev_involutive (s : string) : String.rev (String.rev s) = s.
Proof.
  unfold String.rev. rewrite rev_app_app. simpl. apply string_app_nil_r.
Qed.

Lemma rev_app_spec (s1 s2 : string) :
  String.rev_app s1 s2 = String.rev s1 +:+ s2.
Proof.
  unfold String.rev. revert s2.
  induction s1 as [|c s1 IH]; intros s2; simpl; [done|].
  rewrite IH, (IH (String c EmptyString)), string_app_assoc. done.
Qed.

Lemma string_rev_app (s1 s2 : string) :
  String.rev (s1 +:+ s2) = String.rev s2 +:+ String.rev s1.
Proof.
  induction s1 as [|c s1 IH]; simpl.
  - by rewrite string_app_nil_r.
  - unfold String.rev at 1 3. simpl. rewrite !rev_app_spec, IH.
    by rewrite string_app_assoc.
Qed.

Lemma string_rev_length (s : string) :
  String.length (String.rev s) = String.length s.
Proof.
  induction s as [|c s IH]; [done|].
  unfold String.rev. simpl. rewrite rev_app_spec, string_length_app, IH.
  simpl. lia.
Qed.

(** ** Trimming *)

Lemma strip_space_strips : strips strip_space.
Proof.
  intros s r H. unfold strip_space in H.
  destruct s as [|a s]; [done|]. cbv beta iota zeta in H.
  destruct (_ || _) eqn:Ha in H.
  { injection H as <-. exists (String a EmptyString).
    split; [done|]. split; [done|]. intros u.
    rewrite !string_app_cons. unfold strip_space. cbv beta iota zeta.
    by rewrite Ha. }
  destruct s as [|b s]; [done|]. cbv beta iota zeta in H.
  destruct (_ && _) eqn:Hb in H.
  { injection H as <-. exists (String a (String b EmptyString)).
    split; [done|]. split; [done|]. intros u.
    rewrite !string_app_cons. unfold strip_space. cbv beta iota zeta.
    by rewrite Ha, Hb. }
  destruct s as [|c s]; [done|]. cbv beta iota zeta in H.
  destruct (_ || _) eqn:Hc in H; [|done].
  injection H as <-. exists (String a (String b (String c EmptyString))).
  split; [done|]. split; [done|]. intros u.
  rewrite !string_app_cons. unfold strip_space. cbv beta iota zeta.
  by rewrite Ha, Hb, Hc.
Qed.

Lemma strip_space_rev_strips : strips strip_space_rev.
Proof.
  intros s r H. unfold strip_space_rev in H.
  destruct s as [|a s]; [done|]. cbv beta iota zeta in H.
  destruct (_ || _) eqn:Ha in H.
  { injection H as <-. exists (String a EmptyString).
    split; [done|]. split; [done|]. intros u.
    rewrite !string_app_cons. unfold strip_space_rev. cbv beta iota zeta.
    by rewrite Ha. }
  destruct s as [|b s]; [done|]. cbv beta iota zeta in H.
  destruct (_ && _) eqn:Hb in H.
  { injection H as <-. exists (String a (String b EmptyString)).
    split; [done|]. split; [done|]. intros u.
    rewrite !string_app_cons. unfold strip_space_rev. cbv beta iota zeta.
    by rewrite Ha, Hb. }
  destruct s as [|c s]; [done|]. cbv beta iota zeta in H.
  destruct (_ || _) eqn:Hc in H; [|done].
  injection H as <-. exists (String a (String b (String c EmptyString))).
  split; [done|]. split; [done|]. intros u.
  rewrite !string_app_cons. unfold strip_space_rev. cbv beta iota zeta.
  by rewrite Ha, Hb, Hc.
Qed.

Lemma strip_while_fixed (strip : string → option string) (n : nat)
    (s : string) :
  strip s = None → strip_while strip n s = s.
Proof. intros H. destruct n; simpl; [done|]. by rewrite H. Qed.

Lemma strip_while_done (strip : string → option string) :
  strips strip → strip EmptyString = None →
  ∀ n s, (String.length s ≤ n)%nat → strip (strip_while strip n s) = None.
Proof.
  intros Hstrips Hnil n. induction n as [|n IH]; intros s Hlen; simpl.
  - destruct s; [done|]. simpl in Hlen. lia.
  - destruct (strip s) as [r|] eqn:Hs; [|done].
    apply IH. destruct (Hstrips s r Hs) as (p & Hp & -> & _).
    rewrite string_length_app in Hlen. destruct p; [done|].
    simpl in Hlen. lia.
Qed.

Lemma strip_while_suffix (strip : string → option string) :
  strips strip → ∀ n s, ∃ p, s = p +:+ strip_while strip n s.
Proof.
  intros Hstrips n. induction n as [|n IH]; intros s; simpl.
  - by exists EmptyString.
  - destruct (strip s) as [r|] eqn:Hs; [|by exists EmptyString].
    destruct (Hstrips s r Hs) as (p & _ & -> & _).
    destruct (IH r) as (q & Hq). exists (p +:+ q).
    by rewrite string_app_assoc, <- Hq.
Qed.

Lemma strips_prefix (strip : string → option string) (t u : string) :
  strips strip → strip (t +:+ u) = None → strip t = None.
Proof.
  intros Hstrips H. destruct (strip t) as [r|] eqn:Ht; [|done].
  destruct (Hstrips t r Ht) as (_ & _ & _ & Hu). by rewrite Hu in H.
Qed.

Lemma trimStart_fixed (s : string) :
  strip_space s = None → trimStart s = s.
Proof. apply strip_while_fixed. Qed.

Lemma trimEnd_fixed (s : string) :
  strip_space_rev (String.rev s) = None → trimEnd s = s.
Proof.
  intros H. unfold trimEnd. rewrite strip_while_fixed by done.
  apply string_rev_involutive.
Qed.

Lemma trimStart_clean (s : string) : strip_space (trimStart s) = None.
Proof. by apply strip_while_done; [apply strip_space_strips|..]. Qed.

Lemma trimEnd_clean (s : string) :
  strip_space_rev (String.rev (trimEnd s)) = None.
Proof.
  unfold trimEnd. rewrite string_rev_involutive.
  apply strip_while_done; [apply strip_space_rev_strips|done|].
  by rewrite string_rev_length.
Qed.

Lemma trimEnd_prefix (s : string) : ∃ q, s = trimEnd s +:+ q.
Proof.
  unfold trimEnd.
  destruct (strip_while_suffix strip_space_rev strip_space_rev_strips
              (String.length s) (String.rev s)) as (p & Hp).
  exists (String.rev p).
  rewrite <- string_rev_app, <- Hp. by rewrite string_rev_involutive.
Qed.

(** A trimmed string has no white space at its head or at its end. *)
Lemma trim_clean (s : string) :
  strip_space (trim s) = None
  ∧ strip_space_rev (String.rev (trim s)) = None.
Proof.
  unfold trim. split; [|apply trimEnd_clean].
  destruct (trimEnd_prefix (trimStart s)) as (q & Hq).
  apply (strips_prefix strip_space _ q strip_space_strips).
  rewrite <- Hq. apply trimStart_clean.
Qed.

Lemma trim_idempotent (s : string) : trim (trim s) = trim s.
Proof.
  destruct (trim_clean s) as [Hhead Hend].
  unfold trim at 1. rewrite (trimStart_fixed _ Hhead).
  by apply trimEnd_fixed.
Qed.

(** ** The operator *)

(** X10. What [askUser] returns is the operator's line, trimmed: it has no
    white space at its head or at its end, trimming it again changes
    nothing, and the call never throws. *)
Theorem askUser_answer_trimmed {World : Type} (env : Environment World)
    (question : string) (s : Session World) :
  ∃ answer,
    askUser env question s
    = (Build_Session (fst (env_answer env "->  " (world s)))
         (trace s ++ [ConsoleBox ("🤔 " +:+ question); Question "->  "]),
       Returned answer)
    ∧ answer = trim (snd (env_answer env "->  " (world s)))
    ∧ trim answer = answer
    ∧ strip_space answer = None
    ∧ strip_space_rev (String.rev answer) = None.
Proof.
  exists (trim (snd (env_answer env "->  " (world s)))).
  split; [|split; [done|split; [apply trim_idempotent|apply trim_clean]]].
  unfold askUser. run_session.
  destruct (env_answer env "->  " (world s)) as [w line]. simpl.
  by rewrite <- !app_assoc.
Qed.

(** X11. When the operator's line is not empty after trimming, [main] runs
    the runner with the trimmed line as the instruction: the default is not
    substituted, no default line is printed, and the task line shows the
    trimmed line. *)
Theorem main_instruction_passed {World : Type} (env : Environment World)
    (run : AgentConfig → string → nat → M World (option string))
    (s : Session World) (w' : World) (line : string) :
  env_answer env "->  " (world s) = (w', line) →
  trim line ≠ EmptyString →
  main_with env run s
  = conclude env
      (run (agent env) (trim line) 30%nat
         (Build_Session w'
            (trace s
             ++ [ConsoleBox "🤔 What do you want to automate today?";
                 Question "->  ";
                 ConsoleLog ("🚀 Task: " +:+ trim line)]))).
Proof.
  intros Hanswer Htrim. rewrite main_with_conclude. unfold intake.
  rewrite Hanswer, trim_idempotent.
  destruct (trim line) as [|c rest] eqn:Hline; [done|]. simpl.
  by rewrite <- !app_assoc.
Qed.

(** X11 for an operator who types an instruction between blanks. *)
Lemma main_instruction_passed_witness :
  main_with scripted (Runner_run scripted)
    (script login_page [] true ["  log in  "] [FinalOutput None])
  = conclude scripted
      (Runner_run scripted (agent scripted) "log in" 30%nat
         (Build_Session
            (world (script login_page [] true [] [FinalOutput None]))
            [ConsoleBox "🤔 What do you want to automate today?";
             Question "->  ";
             ConsoleLog "🚀 Task: log in"])).
Proof.
  exact (main_instruction_passed scripted (Runner_run scripted)
           (script login_page [] true ["  log in  "] [FinalOutput None])
           _ "  log in  " eq_refl ltac:(discriminate)).
Defined.

(** X12. A fault of the run never leaves [main]: whatever the runner
    returns or throws, [main] ends the way [browser.close()] ends, on the
    world the run left. *)
Theorem main_ends_as_close_ends {World : Type} (env : Environment World)
    (run : AgentConfig → string → nat → M World (option string))
    (s : Session World) :
  let ended :=
    run (agent env) (snd (intake env s)) 30%nat (fst (intake env s)) in
  snd (main_with env run s) = snd (env_close env (world (fst ended)))
  ∧ world (fst (main_with env run s))
    = fst (env_close env (world (fst ended))).
Proof.
  intros ended. rewrite main_with_conclude. fold ended.
  destruct ended as [s1 outcome]. unfold conclude. simpl.
  by destruct (env_close env (world s1)) as [w [[]|error]].
Qed.

(** ** The screenshot's default name *)

Lemma default_name_inj (a b : Z) :
  "screenshot-" +:+ pretty a +:+ ".png" = "screenshot-" +:+ pretty b +:+ ".png"
  → a = b.
Proof.
  intros H. apply (inj (String.app "screenshot-")) in H.
  apply string_app_inv_tail in H. by apply (inj pretty) in H.
Qed.

(** X13. With the empty path the clock is read twice: once for the file
    that is written, and again after the settle delay for the name the
    spinner shows. When the clock has moved in between, the name shown is
    not the name of the file that was written. *)
Theorem takeScreenshot_shown_name_differs {World : Type}
    (env : Environment World) (s : Session World) (w1 w2 : World)
    (bytes : string) :
  let saved := "screenshot-" +:+ pretty (env_now env (world s)) +:+ ".png" in
  let shown := "screenshot-" +:+ pretty (env_now env w2) +:+ ".png" in
  env_screenshot env saved (world s) = (w1, Returned bytes) →
  env_waitForTimeout env 500 w1 = (w2, Returned tt) →
  env_now env w2 ≠ env_now env (world s) →
  trace (fst (takeScreenshot_execute env EmptyString s))
  = trace s
    ++ [SpinnerStart "📸 Taking screenshot..."; Screenshot saved;
        WaitForTimeout 500; SpinnerSucceed ("📸 Screenshot: " +:+ shown)]
  ∧ shown ≠ saved.
Proof.
  intros saved shown Hshot Hsettle Hclock. subst saved shown. split.
  - unfold takeScreenshot_execute, page_screenshot, page_waitForTimeout,
      screenshot_path, Date_now.
    run_session. rewrite Hshot. simpl. rewrite Hsettle. simpl.
    by rewrite <- !app_assoc.
  - intros H. by apply default_name_inj in H.
Qed.

(** X13 on the scripted environment, whose clock moves with the delay. *)
Lemma takeScreenshot_shown_name_differs_witness :
  trace (fst (takeScreenshot_execute scripted EmptyString
                (script login_page [] true [] [])))
  = [SpinnerStart "📸 Taking screenshot...";
     Screenshot "screenshot-1700000000000.png";
     WaitForTimeout 500;
     SpinnerSucceed "📸 Screenshot: screenshot-1700000000500.png"]
  ∧ "screenshot-1700000000500.png" ≠ "screenshot-1700000000000.png".
Proof.
  exact (takeScreenshot_shown_name_differs scripted
           (script login_page [] true [] []) _ _ _ eq_refl eq_refl
           ltac:(discriminate)).
Defined.

(** X15. With a non-empty path the clock plays no part: the file is
    written at the path given, the spinner shows that path, and the result
    is the image payload, the bytes of the capture in base64. *)
Theorem takeScreenshot_at_path {World : Type} (env : Environment World)
    (path : string) (s : Session World) (w1 w2 : World) (bytes : string) :
  path ≠ EmptyString →
  env_screenshot env path (world s) = (w1, Returned bytes) →
  env_waitForTimeout env 500 w1 = (w2, Returned tt) →
  takeScreenshot_execute env path s
  = (Build_Session w2
       (trace s
        ++ [SpinnerStart "📸 Taking screenshot..."; Screenshot path;
            WaitForTimeout 500; SpinnerSucceed ("📸 Screenshot: " +:+ path)]),
     Returned (Image "base64" "image/png" (toString_base64 bytes)
                 "Current page screenshot")).
Proof.
  intros Hpath Hshot Hsettle.
  unfold takeScreenshot_execute, page_screenshot, page_waitForTimeout,
    screenshot_path.
  destruct path as [|c path]; [done|].
  run_session. rewrite Hshot. simpl. rewrite Hsettle. simpl.
  by rewrite <- !app_assoc.
Qed.

(** X15 on the scripted environment. *)
Lemma takeScreenshot_at_path_witness :
  takeScreenshot_execute scripted "shot.png" (script login_page [] true [] [])
  = (Build_Session (tick 500 (world (script login_page [] true [] [])))
       [SpinnerStart "📸 Taking screenshot..."; Screenshot "shot.png";
        WaitForTimeout 500; SpinnerSucceed "📸 Screenshot: shot.png"],
     Returned (Image "base64" "image/png" "UE5H" "Current page screenshot")).
Proof.
  exact (takeScreenshot_at_path scripted "shot.png"
           (script login_page [] true [] []) _ _ _
           ltac:(discriminate) eq_refl eq_refl).
Defined.

(** ** Form descriptors *)

(** X7. The selector of a form descriptor is positional: the form at
    position [i] of the form enumeration (counted from 0) gets
    [form:nth-child(i+1)], whatever its id, and two entries of the
    enumeration with the same selector are the same entry. *)
Theorem form_selectors_positional (document : list Element.t) (i j : nat)
    (d d' : Descriptor) :
  form_enumeration document !! i = Some d →
  form_enumeration document !! j = Some d' →
  candidates d = ["form:nth-child(" +:+ pretty (i + 1)%nat +:+ ")"]
  ∧ selectors_of d = None
  ∧ (candidates d = candidates d' → i = j).
Proof.
  unfold form_enumeration. rewrite !list_lookup_imap.
  intros Hi Hj.
  destruct (filter _ document !! i) as [form|]; [|done].
  destruct (filter _ document !! j) as [form'|]; [|done].
  simpl in Hi, Hj. injection Hi as <-. injection Hj as <-. simpl.
  split; [done|]. split; [done|].
  intros H. injection H as H.
  apply (inj (String.app EmptyString)) in H.
  apply string_app_inv_tail in H. apply (inj pretty) in H. lia.
Qed.

(** X7 on a page with two forms, the second of which has an id. *)
Lemma form_selectors_positional_witness :
  candidates
    (form_descriptor
       (element "form" None "FORM" (JsString "signup") JsUndefined JsUndefined
          JsUndefined JsUndefined) 1)
  = ["form:nth-child(2)"]
  ∧ selectors_of
      (form_descriptor
         (element "form" None "FORM" (JsString "signup") JsUndefined JsUndefined
          JsUndefined JsUndefined) 1)
    = None
  ∧ (candidates
       (form_descriptor
          (element "form" None "FORM" (JsString "signup") JsUndefined JsUndefined
          JsUndefined JsUndefined) 1)
     = candidates
         (form_descriptor
            (element "form" None "FORM" (JsString "login") JsUndefined
               JsUndefined JsUndefined JsUndefined) 0)
     → 1%nat = 0%nat).
Proof.
  exact (form_selectors_positional
           (login_page
            ++ [element "form" None "FORM" (JsString "signup") JsUndefined
                  JsUndefined JsUndefined JsUndefined])
           1 0 _ _ eq_refl eq_refl).
Defined.

(** ** Tags and class selectors *)

Lemma lower_ascii_idempotent (c : ascii) :
  lower_ascii (lower_ascii c) = lower_ascii c.
Proof. by destruct c as [[] [] [] [] [] [] [] []]. Qed.

Lemma toLowerCase_idempotent (s : string) :
  toLowerCase (toLowerCase s) = toLowerCase s.
Proof.
  induction s as [|c s IH]; simpl; [done|].
  by rewrite lower_ascii_idempotent, IH.
Qed.

(** X16. The tag of every descriptor the page function returns is in
    lower case, in whatever case the element reports its tag name. *)
Theorem descriptor_tags_lower_case (document : list Element.t)
    (focus : string) (elements : list Descriptor) (d : Descriptor) :
  pageFunction document focus = Normal elements →
  d ∈ elements → toLowerCase (tag_of d) = tag_of d.
Proof.
  intros Hpage Hin.
  apply (pageFunction_elem_of _ _ _ _ Hpage) in Hin
    as [(form & index & ->)|[(input & _ & ->)|(button & _ & Hd)]]; simpl.
  - done.
  - apply toLowerCase_idempotent.
  - apply button_descriptor_Normal in Hd as (hints & text & _ & _ & ->).
    apply toLowerCase_idempotent.
Qed.

(** X16 on the login page. *)
Lemma descriptor_tags_lower_case_witness :
  toLowerCase
    (tag_of (input_descriptor
               (element "input" (Some "email") "INPUT" (JsString "email")
                  (JsString "email") (JsString "email")
                  (JsString "Enter email") (JsString EmptyString))))
  = tag_of (input_descriptor
              (element "input" (Some "email") "INPUT" (JsString "email")
                 (JsString "email") (JsString "email")
                 (JsString "Enter email") (JsString EmptyString))).
Proof.
  apply (descriptor_tags_lower_case login_page "form" login_descriptors);
    [reflexivity|].
  apply list_elem_of_further, list_elem_of_here.
Defined.

Lemma occurs_app (c : ascii) (s t : string) :
  occurs c (s +:+ t) = occurs c s || occurs c t.
Proof.
  induction s as [|a s IH]; [done|].
  rewrite string_app_cons. simpl. by rewrite IH, orb_assoc.
Qed.

Lemma occurs_rev (c : ascii) (s : string) :
  occurs c (String.rev s) = occurs c s.
Proof.
  induction s as [|a s IH]; [done|].
  unfold String.rev. simpl. rewrite rev_app_spec, occurs_app, IH. simpl.
  rewrite orb_false_r. apply orb_comm.
Qed.

Lemma split_go_no_separator (sep : ascii) (s cur : string) :
  occurs sep cur = false →
  Forall (λ token, occurs sep token = false) (split_go sep cur s).
Proof.
  revert cur. induction s as [|a s IH]; intros cur Hcur; simpl.
  - apply Forall_singleton. by rewrite occurs_rev.
  - destruct (Ascii.eqb a sep) eqn:Ha.
    + apply Forall_cons. split; [by rewrite occurs_rev|by apply IH].
    + apply IH. simpl. by rewrite Ha.
Qed.

Lemma join_no_occurrence (c : ascii) (sep : string) (l : list string) :
  occurs c sep = false →
  Forall (λ token, occurs c token = false) l →
  occurs c (join sep l) = false.
Proof.
  intros Hsep. induction l as [|x l IH]; intros Hall; [done|].
  apply Forall_cons in Hall as [Hx Hall].
  destruct l as [|y l]; [done|].
  change (occurs c (x +:+ sep +:+ join sep (y :: l)) = false).
  rewrite !occurs_app, Hx, Hsep. by apply IH.
Qed.

(** X17. The class selector of a clickable control is one compound
    selector: when the class name is a string that has a token, the
    candidate made of the tokens joined by dots is listed, and it holds no
    blank, however many blanks separate or surround the tokens in the
    class name. *)
Theorem class_selector_compound (e : Element.t) (className : string) :
  Element.className e = JsString className →
  class_tokens className ≠ [] →
  ∃ hints,
    button_selectorHints e = Normal hints
    ∧ "." +:+ join "." (class_tokens className) ∈ hints
    ∧ occurs " " ("." +:+ join "." (class_tokens className)) = false.
Proof.
  intros Hclass Htokens.
  rewrite (button_selectorHints_string _ _ Hclass).
  eexists. split; [reflexivity|]. split.
  - rewrite !elem_of_push_if.
    left. right. split; [|done].
    apply Nat.ltb_lt. destruct (class_tokens className); [done|].
    simpl. lia.
  - rewrite occurs_app. simpl.
    apply join_no_occurrence; [done|].
    unfold class_tokens, filter_Boolean.
    apply Forall_forall. intros token Htoken.
    apply list_elem_of_filter in Htoken as [_ Htoken].
    pose proof (split_go_no_separator " " className EmptyString eq_refl)
      as Hall.
    rewrite Forall_forall in Hall. by apply Hall.
Qed.

(** X17 for a class name with doubled and trailing blanks. *)
Lemma class_selector_compound_witness :
  ∃ hints,
    button_selectorHints
      (element "button" None "BUTTON" (JsString EmptyString)
         (JsString EmptyString) (JsString "submit") JsUndefined
         (JsString "btn  btn-primary "))
    = Normal hints
    ∧ ".btn.btn-primary" ∈ hints
    ∧ occurs " " ".btn.btn-primary" = false.
Proof.
  exact (class_selector_compound
           (element "button" None "BUTTON" (JsString EmptyString)
              (JsString EmptyString) (JsString "submit") JsUndefined
              (JsString "btn  btn-primary "))
           "btn  btn-primary " eq_refl ltac:(discriminate)).
Defined.

(** ** Elements listed twice *)

Lemma attribute_matches_lower (html : bool) (t v : string) :
  toLowerCase v = v →
  attribute_matches html t v
  = bool_decide ((if html then toLowerCase t else t) = v).
Proof. intros Hv. unfold attribute_matches. destruct html; by rewrite ?Hv. Qed.

(** X18. An element is listed both as an input and as a clickable control
    exactly when it is an [input] with a type attribute whose value is
    [submit] or [button], compared without regard to ASCII case for an
    HTML element and exactly for any other; a form is listed as
    neither. *)
Theorem listed_twice (e : Element.t) :
  (matches query_inputs e = true ∧ matches query_buttons e = true
   ↔ Element.localName e = "input"
     ∧ ∃ t, Element.typeAttribute e = Some t
            ∧ ((if Element.html e then toLowerCase t else t) = "submit"
               ∨ (if Element.html e then toLowerCase t else t) = "button"))
  ∧ (matches query_forms e = true →
     matches query_inputs e = false ∧ matches query_buttons e = false).
Proof.
  unfold matches, query_inputs, query_buttons, query_forms.
  cbn [existsb matches1]. rewrite !orb_false_r.
  split.
  - split.
    + intros [Hi Hb].
      destruct (Element.typeAttribute e) as [t|].
      * rewrite !attribute_matches_lower in Hb by reflexivity.
        repeat case_bool_decide; try done; try congruence;
          (split; [done|]); exists t; auto.
      * repeat case_bool_decide; try done; congruence.
    + intros (Htag & t & Hattr & Hvalue). rewrite Htag, Hattr.
      rewrite !attribute_matches_lower by reflexivity.
      split; [done|].
      destruct Hvalue as [Hv|Hv]; rewrite Hv; done.
  - intros Hform. apply bool_decide_eq_true_1 in Hform. by rewrite Hform.
Qed.

(** X18 for a form, and for an input whose type attribute is written in
    capitals. *)
Lemma listed_twice_witness :
  (matches query_inputs
     (element "form" None "FORM" (JsString "login") JsUndefined JsUndefined
        JsUndefined JsUndefined) = false
   ∧ matches query_buttons
       (element "form" None "FORM" (JsString "login") JsUndefined JsUndefined
          JsUndefined JsUndefined) = false)
  ∧ (matches query_inputs
       (element "input" (Some "SUBMIT") "INPUT" (JsString "go")
          (JsString EmptyString) (JsString "submit") (JsString EmptyString)
          (JsString EmptyString)) = true
     ∧ matches query_buttons
         (element "input" (Some "SUBMIT") "INPUT" (JsString "go")
            (JsString EmptyString) (JsString "submit") (JsString EmptyString)
            (JsString EmptyString)) = true).
Proof.
  split.
  - destruct (listed_twice
                (element "form" None "FORM" (JsString "login") JsUndefined
                   JsUndefined JsUndefined JsUndefined)) as [_ Hform].
    exact (Hform eq_refl).
  - destruct (listed_twice
                (element "input" (Some "SUBMIT") "INPUT" (JsString "go")
                   (JsString EmptyString) (JsString "submit")
                   (JsString EmptyString) (JsString EmptyString)))
      as [[_ Hboth] _].
    apply Hboth. split; [reflexivity|]. exists "SUBMIT".
    split; [reflexivity|]. left. reflexivity.
Defined.

Lemma listed_at_most_twice (document : list Element.t) :
  (List.length (filter (λ e, matches query_forms e) document)
   + List.length (filter (λ e, matches query_inputs e) document)
   + List.length (filter (λ e, matches query_buttons e) document)
   ≤ 2 * List.length document)%nat.
Proof.
  induction document as [|e document IH]; [done|].
  rewrite !filter_cons.
  destruct (listed_twice e) as [_ Hform].
  destruct (matches query_forms e) eqn:Hf.
  - destruct (Hform eq_refl) as [-> ->].
    repeat case_decide; try done; simpl in IH |- *; lia.
  - repeat case_decide; try done; simpl in IH |- *; lia.
Qed.

(** X19. The page function returns at most two descriptors for each
    element of the document. *)
Theorem pageFunction_at_most_twice (document : list Element.t)
    (focus : string) (elements : list Descriptor) :
  pageFunction document focus = Normal elements →
  (List.length elements ≤ 2 * List.length document)%nat.
Proof.
  intros Hpage.
  apply pageFunction_Normal in Hpage as (buttons & Hbuttons & ->).
  apply mapM_Normal_Forall2, Forall2_length in Hbuttons.
  unfold form_enumeration, input_enumeration.
  rewrite !length_app, length_imap, !length_fmap, <- Hbuttons.
  pose proof (listed_at_most_twice document). lia.
Qed.

(** X19 on the login page: three elements, four descriptors. *)
Lemma pageFunction_at_most_twice_witness :
  (List.length login_descriptors ≤ 2 * List.length login_page)%nat.
Proof.
  exact (pageFunction_at_most_twice login_page "form" login_descriptors
           eq_refl).
Defined.

(** ** A control that breaks the extraction *)

Lemma mapM_TypeError {A B : Type} (f : A → Completion B) (l : list A)
    (x : A) :
  x ∈ l → (∀ y, f x ≠ Normal y) → ∃ message, mapM f l = TypeError message.
Proof.
  intros Hin Hx. induction l as [|a l IH]; [by apply elem_of_nil in Hin|].
  simpl. destruct (f a) as [b|message] eqn:Ha; simpl; [|by eauto].
  apply elem_of_cons in Hin as [->|Hin]; [by destruct (Hx b)|].
  destruct (IH Hin) as [message ->]. simpl. eauto.
Qed.

(** X20. One clickable control whose class name is truthy and not a string
    (a [button] of the SVG namespace, whose class name is an object) makes
    the whole extraction fail: the page function throws at
    [className.split], no descriptor of any element is returned, and the
    execution function throws the error the page gives, its spinner left
    running. *)
Theorem extract_throws_on_object_className {World : Type}
    (env : Environment World) (selectionArea : option string)
    (s : Session World) (w' : World) (document : list Element.t)
    (e : Element.t) :
  env_document env (world s) = (w', Returned document) →
  e ∈ document →
  matches query_buttons e = true →
  ToBoolean (Element.className e) = true →
  (∀ className, Element.className e ≠ JsString className) →
  button_descriptor e = TypeError "button.className.split is not a function"
  ∧ ∃ message,
      pageFunction document (or_else selectionArea "form") = TypeError message
      ∧ extractPageElements_execute env selectionArea s
        = (Build_Session w'
             (trace s
              ++ [SpinnerStart "🔍 Analyzing...";
                  EvaluateFunction (or_else selectionArea "form")]),
           Threw (env_page_error env message)).
Proof.
  intros Hdoc Hin Hmatch Htruthy Hnot.
  assert (button_descriptor e
          = TypeError "button.className.split is not a function") as He.
  { unfold button_descriptor.
    by rewrite (button_selectorHints_throws _ Htruthy Hnot). }
  split; [exact He|].
  assert (∃ message,
            pageFunction document (or_else selectionArea "form")
            = TypeError message) as [message Hpage].
  { rewrite pageFunction_enumerations. unfold button_enumeration.
    destruct (mapM_TypeError button_descriptor
                (filter (λ e, matches query_buttons e) document) e)
      as [message ->].
    - apply list_elem_of_filter. split; [by apply Is_true_true|done].
    - intros y. by rewrite He.
    - simpl. eauto. }
  exists message. split; [exact Hpage|].
  by apply (extractPageElements_execute_page_throws env _ s w' document).
Qed.

(** X20 on the login page with an SVG button after it. *)
Lemma extract_throws_on_object_className_witness :
  button_descriptor foreign_button
  = TypeError "button.className.split is not a function"
  ∧ ∃ message,
      pageFunction (login_page ++ [foreign_button]) "form" = TypeError message
      ∧ extractPageElements_execute scripted None
          (script (login_page ++ [foreign_button]) [] true [] [])
        = (Build_Session
             (world (script (login_page ++ [foreign_button]) [] true [] []))
             [SpinnerStart "🔍 Analyzing..."; EvaluateFunction "form"],
           Threw (env_page_error scripted message)).
Proof.
  apply (extract_throws_on_object_className scripted None
           (script (login_page ++ [foreign_button]) [] true [] []) _
           (login_page ++ [foreign_button]) foreign_button eq_refl).
  - apply elem_of_app. right. apply list_elem_of_here.
  - reflexivity.
  - reflexivity.
  - discriminate.
Defined.

Lemma mapM_Normal_Forall {A B : Type} (f : A → Completion B) (l : list A) :
  Forall (λ x, ∃ y, f x = Normal y) l → ∃ k, mapM f l = Normal k.
Proof.
  induction 1 as [|x l [y Hy] _ [k Hk]]; simpl; [by eexists|].
  rewrite Hy. simpl. rewrite Hk. simpl. by eexists.
Qed.

(** X21. On a document in which the class name and the text content of
    every clickable control are strings, as they are for the [button] and
    [input] elements of an HTML document, the page function completes and
    the extraction returns its result. *)
Theorem extract_returns_on_string_controls {World : Type}
    (env : Environment World) (selectionArea : option string)
    (s : Session World) (w' : World) (document : list Element.t) :
  env_document env (world s) = (w', Returned document) →
  Forall (λ e, matches query_buttons e = true →
               (∃ className, Element.className e = JsString className)
               ∧ ∃ text, Element.textContent e = JsString text)
    document →
  ∃ elements,
    pageFunction document (or_else selectionArea "form") = Normal elements
    ∧ extractPageElements_execute env selectionArea s
      = (Build_Session w'
           (trace s
            ++ [SpinnerStart "🔍 Analyzing...";
                EvaluateFunction (or_else selectionArea "form");
                SpinnerSucceed
                  ("🔍 Found: " +:+ pretty (List.length elements)
                     +:+ " elements")]),
         Returned (Elements elements)).
Proof.
  intros Hdoc Hstrings.
  assert (∃ buttons, button_enumeration document = Normal buttons)
    as [buttons Hbuttons].
  { unfold button_enumeration. apply mapM_Normal_Forall.
    apply Forall_forall. intros e He.
    apply list_elem_of_filter in He as [Hmatch He].
    rewrite Forall_forall in Hstrings.
    destruct (Hstrings e He (Is_true_true_1 _ Hmatch)) as [Hclass Htext].
    apply button_descriptor_completes; eauto. }
  exists (form_enumeration document ++ input_enumeration document ++ buttons).
  assert (pageFunction document (or_else selectionArea "form")
          = Normal (form_enumeration document ++ input_enumeration document
                      ++ buttons)) as Hpage.
  { rewrite pageFunction_enumerations. by rewrite Hbuttons. }
  split; [exact Hpage|].
  by apply (extractPageElements_execute_returned env _ s w' document).
Qed.

(** X21 on the login page. *)
Lemma extract_returns_on_string_controls_witness :
  ∃ elements,
    pageFunction login_page "form" = Normal elements
    ∧ extractPageElements_execute scripted None
        (script login_page [] true [] [])
      = (Build_Session (world (script login_page [] true [] []))
           [SpinnerStart "🔍 Analyzing..."; EvaluateFunction "form";
            SpinnerSucceed
              ("🔍 Found: " +:+ pretty (List.length elements)
                 +:+ " elements")],
         Returned (Elements elements)).
Proof.
  apply (extract_returns_on_string_controls scripted None
           (script login_page [] true [] []) _ login_page eq_refl).
  repeat (apply Forall_cons; split; [intros _; split; by eexists|]).
  apply Forall_nil. exact I.
Defined.
